(** * Document summarizer: the processing Lambda (index.py)

    A shallow embedding of the document-processing pipeline of
    [cdk-python/cdk.out/asset.dfdd.../index.py]: the text sanitizer
    [_clean_extracted_text], the extractor [extract_text], the summarizer
    [generate_summary], the persistence helpers [store_summary],
    [store_metadata], [send_notification] and the orchestrator
    [lambda_handler].

    Python strings are sequences of Unicode code points, so a [str] is a
    list of code points (N); [bytes] is a list of [Byte.byte].  The AWS
    collaborators (S3, Textract, Bedrock, DynamoDB, SNS), the clock and
    the uuid generator are oracles of an environment; every call is
    recorded in a trace, and the DynamoDB table and the output bucket are
    finite maps of the state. *)

From Stdlib Require Import NArith ZArith List Ascii String Bool Lia.
From Stdlib.Strings Require Import Byte.
From stdpp Require Import base option list strings gmap pretty.

Set Default Proof Using "Type".

(** ** Python strings *)

Abbreviation pystr := (list N) (only parsing).
Abbreviation bytes := (list Byte.byte) (only parsing).

(** An ASCII literal of the source as a Python string. *)
Definition py (s : string) : pystr :=
  List.map N_of_ascii (list_ascii_of_string s).

Definition LF : N := 10%N.
Definition TAB : N := 9%N.

Definition pystr_eqb (a b : pystr) : bool := bool_decide (a = b).

(** [s.startswith(prefix)] *)
Fixpoint startswith (prefix s : pystr) : bool :=
  match prefix, s with
  | [], _ => true
  | _ :: _, [] => false
  | p :: prefix', c :: s' => N.eqb p c && startswith prefix' s'
  end.

(** [sub in s] *)
Fixpoint contains (sub s : pystr) : bool :=
  startswith sub s ||
  match s with
  | [] => false
  | _ :: s' => contains sub s'
  end.

(** [sep.join(parts)] *)
Fixpoint join (sep : pystr) (parts : list pystr) : pystr :=
  match parts with
  | [] => []
  | [p] => p
  | p :: rest => p ++ sep ++ join sep rest
  end.

(** [s.replace(ch, new)] for a pattern [ch] of exactly one character, the
    only way the source calls it. *)
Definition replace_char (ch : N) (new : pystr) (s : pystr) : pystr :=
  flat_map (fun c => if N.eqb c ch then new else [c]) s.

(** CPython's [_PyUnicode_IsWhitespace]: the characters removed by
    [str.strip()] and matched by [\s] in a str pattern. *)
Definition isspace (c : N) : bool :=
  ((9 <=? c) && (c <=? 13) || (28 <=? c) && (c <=? 32) ||
   (c =? 133) || (c =? 160) || (c =? 5760) ||
   (8192 <=? c) && (c <=? 8202) || (c =? 8232) || (c =? 8233) ||
   (c =? 8239) || (c =? 8287) || (c =? 12288))%N.

(** The line boundaries of [str.splitlines()]: LF, VT, FF, CR, FS, GS, RS,
    NEL, LINE SEPARATOR and PARAGRAPH SEPARATOR. *)
Definition is_linebreak (c : N) : bool :=
  ((10 <=? c) && (c <=? 13) || (28 <=? c) && (c <=? 30) ||
   (c =? 133) || (c =? 8232) || (c =? 8233))%N.

Fixpoint lstrip (s : pystr) : pystr :=
  match s with
  | [] => []
  | c :: s' => if isspace c then lstrip s' else s
  end.

Definition rstrip (s : pystr) : pystr := rev (lstrip (rev s)).

(** [s.strip()] *)
Definition strip (s : pystr) : pystr := rstrip (lstrip s).

(** [s.splitlines()]: [cur] is the current line, reversed.  CR LF counts
    as one boundary, and a final boundary opens no empty last line. *)
Fixpoint splitlines_from (cur : pystr) (s : pystr) : list pystr :=
  match s with
  | [] => match cur with [] => [] | _ => [rev cur] end
  | c :: s' =>
      if N.eqb c 13 then
        match s' with
        | c' :: s'' =>
            if N.eqb c' 10 then rev cur :: splitlines_from [] s''
            else rev cur :: splitlines_from [] s'
        | [] => rev cur :: splitlines_from [] s'
        end
      else if is_linebreak c then rev cur :: splitlines_from [] s'
      else splitlines_from (c :: cur) s'
  end.

Definition splitlines (s : pystr) : list pystr := splitlines_from [] s.

(** ** Regular expressions of the [re] module

    Only the constructs of the one pattern of the source:
    character classes, concatenation, alternation and repetition, matched
    with Brzozowski derivatives. *)

Inductive regex : Type :=
| Void : regex
| Eps : regex
| Cls : (N -> bool) -> regex
| Cat : regex -> regex -> regex
| Alt : regex -> regex -> regex
| Star : regex -> regex.

Definition Plus (r : regex) : regex := Cat r (Star r).
Definition Chr (c : N) : regex := Cls (N.eqb c).

Fixpoint Lit (s : pystr) : regex :=
  match s with
  | [] => Eps
  | c :: s' => Cat (Chr c) (Lit s')
  end.

Fixpoint nullable (r : regex) : bool :=
  match r with
  | Void => false
  | Eps => true
  | Cls _ => false
  | Cat r1 r2 => nullable r1 && nullable r2
  | Alt r1 r2 => nullable r1 || nullable r2
  | Star _ => true
  end.

Fixpoint deriv (c : N) (r : regex) : regex :=
  match r with
  | Void => Void
  | Eps => Void
  | Cls p => if p c then Eps else Void
  | Cat r1 r2 =>
      if nullable r1 then Alt (Cat (deriv c r1) r2) (deriv c r2)
      else Cat (deriv c r1) r2
  | Alt r1 r2 => Alt (deriv c r1) (deriv c r2)
  | Star r1 => Cat (deriv c r1) (Star r1)
  end.

(** The whole of [s] is in the language of [r]. *)
Fixpoint fullmatch (r : regex) (s : pystr) : bool :=
  match s with
  | [] => nullable r
  | c :: s' => fullmatch (deriv c r) s'
  end.

(** [$] without MULTILINE: the end of the string, or just before a newline
    that ends the string. *)
Definition dollar : regex := Alt Eps (Chr LF).

(** The declarative reading of a regex. *)
Inductive lang : regex -> pystr -> Prop :=
| lang_eps : lang Eps []
| lang_cls p c : p c = true -> lang (Cls p) [c]
| lang_cat r1 r2 s1 s2 : lang r1 s1 -> lang r2 s2 -> lang (Cat r1 r2) (s1 ++ s2)
| lang_alt_l r1 r2 s : lang r1 s -> lang (Alt r1 r2) s
| lang_alt_r r1 r2 s : lang r2 s -> lang (Alt r1 r2) s
| lang_star_nil r : lang (Star r) []
| lang_star_cons r s1 s2 :
    lang r s1 -> lang (Star r) s2 -> lang (Star r) (s1 ++ s2).

(** ** The Python runtime

    [str.lower], the decimal-digit property behind [\d], the UTF-8 codec
    and [urllib.parse.unquote_plus] are CPython's, driven by Unicode
    tables that are no part of the repository.  They are an interface;
    the laws fix their behaviour on ASCII, where no table is consulted. *)

Definition is_ascii (c : N) : bool := (c <? 128)%N.

Definition ascii_lower (c : N) : N :=
  if ((65 <=? c) && (c <=? 90))%N then (c + 32)%N else c.

Definition ascii_digit (c : N) : bool := ((48 <=? c) && (c <=? 57))%N.

Class PyRuntime : Type := {
  str_lower : pystr -> pystr;
  isdecimal : N -> bool;
  decode_utf8 : bytes -> option pystr;
  decode_utf8_ignore : bytes -> pystr;
  unquote_plus : pystr -> pystr;
  str_lower_ascii : forall s,
    forallb is_ascii s = true -> str_lower s = List.map ascii_lower s;
  isdecimal_ascii : forall c,
    is_ascii c = true -> isdecimal c = ascii_digit c
}.

(** [data.decode("latin-1", errors="ignore")]: every byte is a code point. *)
Definition decode_latin1 (data : bytes) : pystr := List.map Byte.to_N data.

(** The runtime cut down to ASCII: lower-casing and digits of ASCII only,
    bytes above 127 rejected (strict) or skipped (ignore), no escapes in
    keys.  It runs the model on ASCII inputs, where it agrees with
    CPython. *)
Definition ascii_decode_strict (data : bytes) : option pystr :=
  if forallb (fun b => is_ascii (Byte.to_N b)) data
  then Some (List.map Byte.to_N data) else None.

Definition ascii_decode_ignore (data : bytes) : pystr :=
  List.filter is_ascii (List.map Byte.to_N data).

Definition ascii_runtime : PyRuntime := {|
  str_lower := List.map ascii_lower;
  isdecimal := ascii_digit;
  decode_utf8 := ascii_decode_strict;
  decode_utf8_ignore := ascii_decode_ignore;
  unquote_plus := fun s => s;
  str_lower_ascii := fun s _ => eq_refl;
  isdecimal_ascii := fun c _ => eq_refl
|}.

(** ** The sanitizer: [_clean_extracted_text] *)

Section Sanitizer.
Context `{RT : PyRuntime}.

(** [r"^\d+\s+\d+\s+obj$"] *)
Definition obj_pattern : regex :=
  Cat (Plus (Cls isdecimal))
   (Cat (Plus (Cls isspace))
     (Cat (Plus (Cls isdecimal))
       (Cat (Plus (Cls isspace))
         (Cat (Lit (py "obj")) dollar)))).

(** [re.match(pattern, s)]: the pattern is anchored at both ends, so a
    match is a match of the whole string. *)
Definition re_match (r : regex) (s : pystr) : bool := fullmatch r s.

(** The tuple of [lower in ("endobj", "stream", "endstream")]. *)
Definition container_keywords : list pystr :=
  [py "endobj"; py "stream"; py "endstream"].

Definition in_tuple (s : pystr) (t : list pystr) : bool :=
  existsb (pystr_eqb s) t.

(** One iteration of the [for line in lines] loop: what it appends to
    [cleaned_lines]. *)
Definition clean_line (cleaned_lines : list pystr) (line : pystr) : list pystr :=
  let stripped := strip line in
  match stripped with
  | [] => cleaned_lines ++ [[]]
  | _ =>
      let lower := str_lower stripped in
      if startswith (py "%pdf") lower then cleaned_lines
      else if startswith (py "%%eof") lower then cleaned_lines
      else if re_match obj_pattern stripped then cleaned_lines
      else if in_tuple lower container_keywords then cleaned_lines
      else cleaned_lines ++ [stripped]
  end.

(** The filter of the final comprehension. *)
Definition printable (ch : N) : bool :=
  (N.eqb ch LF || N.eqb ch TAB) || ((32 <=? ch) && (ch <=? 126))%N || (160 <=? ch)%N.

Definition _clean_extracted_text (raw : pystr) : pystr :=
  let lines := splitlines raw in
  let cleaned_lines := fold_left clean_line lines [] in
  let cleaned := join [LF] cleaned_lines in
  List.filter printable cleaned.

End Sanitizer.

(** ** Exceptions, attribute values and the collaborators *)

(** The exceptions the pipeline distinguishes.  [ClientError] stands for
    any other failure of a service call.  The argument is [str(e)]. *)
Inductive exn : Type :=
| UnsupportedDocumentException (msg : pystr)
| ValueError (msg : pystr)
| IndexError (msg : pystr)
| KeyError (msg : pystr)
| ClientError (msg : pystr).

(** [str(e)] *)
Definition exn_str (e : exn) : pystr :=
  match e with
  | UnsupportedDocumentException m | ValueError m | IndexError m
  | KeyError m | ClientError m => m
  end.

Inductive outcome (A : Type) : Type :=
| Return (a : A)
| Raise (e : exn).
Arguments Return {A} a.
Arguments Raise {A} e.

(** Values of a DynamoDB item, of S3 object metadata and of a message.
    An instant is a [datetime] in UTC, in microseconds since the epoch;
    the source stores its [isoformat()], which determines the instant.
    A duration is the [str] of a [total_seconds()], in microseconds. *)
Inductive attr : Type :=
| AStr (s : pystr)
| ANum (n : Z)
| AInstant (us : Z)
| ADuration (us : Z).

#[export] Instance attr_eq_dec : EqDecision attr.
Proof. solve_decision. Defined.

Abbreviation dict := (gmap string attr) (only parsing).

(** A block of a Textract response: [block.get("BlockType")] and
    [block["Text"]], which may be absent. *)
Record block : Type := {
  BlockType : option pystr;
  Text : option pystr
}.

(** The body of a Bedrock request, before [json.dumps]. *)
Record chat_body : Type := {
  model : pystr;
  messages : list (pystr * pystr);
  max_tokens : Z;
  temperature : string;
  top_p : string
}.

(** The arguments of [s3.put_object]. *)
Record put_object_request : Type := {
  Bucket : pystr;
  Key : pystr;
  Body : pystr;
  ContentType : pystr;
  Metadata : gmap string attr
}.

(** The arguments of [sns.publish]; [Message] before [json.dumps]. *)
Record publish_request : Type := {
  TopicArn : pystr;
  Subject : pystr;
  Message : gmap string attr
}.

(** A record of the trigger event: [r["s3"]["bucket"]["name"]] and
    [r["s3"]["object"]["key"]]. *)
Record s3_record : Type := {
  bucket_name : pystr;
  object_key : pystr
}.

(** The value the handler returns; [body] before [json.dumps]. *)
Record response : Type := {
  statusCode : Z;
  body : gmap string attr
}.

(** One call to a collaborator. *)
Inductive call : Type :=
| GetObject (bucket key : pystr)
| DetectDocumentText (bucket key : pystr)
| InvokeModel (modelId : pystr) (request : chat_body)
| PutObject (request : put_object_request)
| PutItem (item : gmap string attr)
| Publish (request : publish_request).

(** The environment of one invocation: configuration, and an oracle per
    collaborator.  The first argument of an oracle is the number of
    interactions made so far, so that the same request may succeed once
    and fail later.  A Bedrock answer is the list of the
    [choices[i]["message"]["content"]]. *)
Record env : Type := {
  OUTPUT_BUCKET : pystr;
  NOTIFICATION_TOPIC : pystr;
  BEDROCK_MODEL_ID : pystr;
  clock : nat -> Z;
  uuid : nat -> pystr;
  s3_get_object : nat -> pystr -> pystr -> outcome bytes;
  s3_put_object : nat -> put_object_request -> option exn;
  textract_detect_document_text : nat -> pystr -> pystr -> outcome (list block);
  bedrock_invoke_model : nat -> pystr -> chat_body -> outcome (list pystr);
  dynamodb_put_item : nat -> gmap string attr -> option exn;
  sns_publish : nat -> publish_request -> option exn
}.

(** What an invocation can change: the metadata table, keyed by
    (document_id, processing_timestamp), the output bucket, and the trace
    of calls, oldest first. *)
Record state : Type := {
  tick : nat;
  table : gmap (pystr * Z) (gmap string attr);
  objects : gmap (pystr * pystr) put_object_request;
  trace : list call
}.

Definition initial_state : state :=
  {| tick := 0; table := ∅; objects := ∅; trace := [] |}.

(** One interaction: the counter advances and the call is recorded. *)
Definition interact (c : option call) (s : state) : state :=
  {| tick := S (tick s);
     table := table s;
     objects := objects s;
     trace := match c with Some c => trace s ++ [c] | None => trace s end |}.

Definition set_table (t : gmap (pystr * Z) (gmap string attr)) (s : state) : state :=
  {| tick := tick s; table := t; objects := objects s; trace := trace s |}.

Definition set_objects (o : gmap (pystr * pystr) put_object_request) (s : state) : state :=
  {| tick := tick s; table := table s; objects := o; trace := trace s |}.

(** ** The monad of the handler: state that survives an exception *)

Definition M (A : Type) : Type := state -> outcome A * state.

Definition ret {A} (a : A) : M A := fun s => (Return a, s).
Definition raise {A} (e : exn) : M A := fun s => (Raise e, s).

Definition bind {A B} (m : M A) (k : A -> M B) : M B :=
  fun s =>
    match m s with
    | (Return a, s') => k a s'
    | (Raise e, s') => (Raise e, s')
    end.

(** [try: m  except Exception as e: handler e] *)
Definition try_except {A} (m : M A) (handler : exn -> M A) : M A :=
  fun s =>
    match m s with
    | (Return a, s') => (Return a, s')
    | (Raise e, s') => handler e s'
    end.

Declare Scope py_scope.
Delimit Scope py_scope with py_m.
Notation "x <- m ;; k" := (bind m (fun x => k))
  (at level 100, m at next level, right associativity) : py_scope.
Notation "m ;;; k" := (bind m (fun _ => k))
  (at level 100, right associativity) : py_scope.
Open Scope py_scope.

(** The key attributes of an item, as the table's key schema reads them. *)
Definition item_key (item : gmap string attr) : option (pystr * Z) :=
  match item !! "document_id"%string, item !! "processing_timestamp"%string with
  | Some (AStr d), Some (AInstant t) => Some (d, t)
  | _, _ => None
  end.

Section Collaborators.
Variable E : env.

(** [datetime.now(timezone.utc)] *)
Definition utcnow : M Z :=
  fun s => (Return (clock E (tick s)), interact None s).

(** [str(uuid.uuid4())] *)
Definition uuid4 : M pystr :=
  fun s => (Return (uuid E (tick s)), interact None s).

(** [s3.get_object(Bucket=bucket, Key=key)["Body"].read()] *)
Definition get_object (bucket key : pystr) : M bytes :=
  fun s => (s3_get_object E (tick s) bucket key,
            interact (Some (GetObject bucket key)) s).

(** [s3.put_object(...)]: an accepted write replaces the object. *)
Definition put_object (req : put_object_request) : M unit :=
  fun s =>
    let s' := interact (Some (PutObject req)) s in
    match s3_put_object E (tick s) req with
    | Some e => (Raise e, s')
    | None => (Return tt, set_objects (<[(Bucket req, Key req) := req]> (objects s')) s')
    end.

(** [textract.detect_document_text(...)]: the blocks of the response. *)
Definition detect_document_text (bucket key : pystr) : M (list block) :=
  fun s => (textract_detect_document_text E (tick s) bucket key,
            interact (Some (DetectDocumentText bucket key)) s).

(** [bedrock.invoke_model(modelId=..., body=json.dumps(body))] and the
    [json.loads] of the answer. *)
Definition invoke_model (modelId : pystr) (request : chat_body) : M (list pystr) :=
  fun s => (bedrock_invoke_model E (tick s) modelId request,
            interact (Some (InvokeModel modelId request)) s).

(** [table.put_item(Item=item)]: an accepted item replaces the item of
    the same key. *)
Definition put_item (item : gmap string attr) : M unit :=
  fun s =>
    let s' := interact (Some (PutItem item)) s in
    match dynamodb_put_item E (tick s) item with
    | Some e => (Raise e, s')
    | None =>
        match item_key item with
        | Some k => (Return tt, set_table (<[k := item]> (table s')) s')
        | None => (Raise (ClientError (py "ValidationException")), s')
        end
    end.

(** [sns.publish(...)] *)
Definition publish (req : publish_request) : M unit :=
  fun s =>
    let s' := interact (Some (Publish req)) s in
    match sns_publish E (tick s) req with
    | Some e => (Raise e, s')
    | None => (Return tt, s')
    end.

End Collaborators.

(** ** [os.path.splitext] (posixpath) *)

(** [p.rfind(c)]: the index of the last [c] in [p], or -1. *)
Fixpoint rfind_from (i : Z) (found : Z) (c : N) (p : pystr) : Z :=
  match p with
  | [] => found
  | x :: p' => rfind_from (i + 1) (if N.eqb x c then i else found) c p'
  end.

Definition rfind (c : N) (p : pystr) : Z := rfind_from 0 (-1) c p.

(** [genericpath._splitext(p, "/", None, ".")]: the extension starts at
    the last dot of the last component, unless only dots precede it. *)
Definition splitext (p : pystr) : pystr * pystr :=
  let sepIndex := rfind 47 p in
  let dotIndex := rfind 46 p in
  if (sepIndex <? dotIndex)%Z then
    let filenameIndex := Z.to_nat (sepIndex + 1) in
    let leading := take (Z.to_nat dotIndex - filenameIndex) (drop filenameIndex p) in
    if forallb (N.eqb 46) leading then (p, [])
    else (take (Z.to_nat dotIndex) p, drop (Z.to_nat dotIndex) p)
  else (p, []).

(** ** The pipeline *)

Section Pipeline.
Context `{RT : PyRuntime}.
Variable E : env.

Definition text_extensions : list pystr :=
  [py ".txt"; py ".md"; py ".csv"; py ".log"].

(** The comprehension over the blocks: the text of every LINE block, in
    order; a LINE block without text is a [KeyError]. *)
Fixpoint line_texts (blocks : list block) : outcome (list pystr) :=
  match blocks with
  | [] => Return []
  | b :: rest =>
      if bool_decide (BlockType b = Some (py "LINE")) then
        match Text b with
        | None => Raise (KeyError (py "'Text'"))
        | Some t =>
            match line_texts rest with
            | Return ts => Return (t :: ts)
            | Raise e => Raise e
            end
        end
      else line_texts rest
  end.

Definition lift {A} (o : outcome A) : M A := fun s => (o, s).

(** The [try] block of [extract_text]. *)
Definition extract_text_body (bucket key : pystr) : M pystr :=
  let extension := snd (splitext (str_lower key)) in
  if in_tuple extension text_extensions then
    data <- get_object E bucket key ;;
    match decode_utf8 data with
    | Some text => ret text
    | None => ret (decode_latin1 data)
    end
  else
    blocks <- detect_document_text E bucket key ;;
    text_blocks <- lift (line_texts blocks) ;;
    ret (join [LF] text_blocks).

(** The handler of [UnsupportedDocumentException]: read the raw object
    and clean it; any other exception is raised again. *)
Definition extract_text (bucket key : pystr) : M pystr :=
  try_except (extract_text_body bucket key)
    (fun e =>
       match e with
       | UnsupportedDocumentException _ =>
           data <- get_object E bucket key ;;
           let raw_text := decode_utf8_ignore data in
           let cleaned := _clean_extracted_text raw_text in
           ret cleaned
       | _ => raise e
       end).

Definition _generic_failure_summary : pystr :=
  py "1. The document text could not be read in a clear way." ++ [LF] ++
  py "2. No reliable topics, facts, or dates can be identified from the available data." ++ [LF] ++
  py "3. Consider uploading a text-based or searchable PDF version of the file." ++ [LF] ++
  py "4. If the file is scanned, try running OCR locally and uploading the extracted text.".

Definition max_length : nat := Z.to_nat 10000.

(** The marker appended to a truncated text. *)
Definition truncation_marker : pystr := py "...".

(** [text_content[:max_length] + "..."] when the text is too long. *)
Definition truncate (text_content : pystr) : pystr :=
  if (max_length <? length text_content)%nat
  then take max_length text_content ++ truncation_marker
  else text_content.

Definition prompt_system : pystr :=
  py "You write natural, human-sounding summaries of documents." ++ [LF] ++
  py "Rules:" ++ [LF] ++
  py "- Do not apologize." ++ [LF] ++
  py "- Do not mention binary data, encoding, PDF structure, or raw bytes." ++ [LF] ++
  py "- Do not say the document is corrupted or unreadable." ++ [LF] ++
  py "- Do not use markdown, bullet symbols, or asterisks (" ++ [42%N] ++
  py ", -, " ++ [8226%N] ++ py ", etc.)." ++ [LF] ++
  py "- Write plain text only, with numbered points and short paragraphs." ++ [LF] ++
  py "If you truly cannot see any meaningful text at all, keep the answer very short.".

Definition prompt_user (text_content : pystr) : pystr :=
  py "Summarize the following document clearly and concisely." ++ [LF] ++
  py "Include:" ++ [LF] ++
  py "1. Main topics and key points" ++ [LF] ++
  py "2. Important facts, figures, and conclusions" ++ [LF] ++
  py "3. Actionable insights or recommendations" ++ [LF] ++
  py "4. Any critical deadlines or dates mentioned" ++ [LF; LF] ++
  py "Document content:" ++ [LF] ++
  text_content ++ [LF].

Definition request_body (text_content : pystr) : chat_body :=
  {| model := BEDROCK_MODEL_ID E;
     messages := [(py "system", prompt_system);
                  (py "user", prompt_user text_content)];
     max_tokens := 800;
     temperature := "0.1";
     top_p := "0.9" |}.

(** The characters of [for ch in [...]]: asterisk, bullet U+2022, black
    circle U+25CF, hyphen-minus, black small square U+25AA. *)
Definition formatting_characters : list N :=
  [42%N; 8226%N; 9679%N; 45%N; 9642%N].

(** The loop over the formatting characters, then [strip()]. *)
Definition clean_summary (summary_text : pystr) : pystr :=
  strip (fold_left (fun s ch => replace_char ch [] s) formatting_characters summary_text).

Definition bad_phrases : list pystr :=
  [py "appears to be corrupted";
   py "contains unreadable data";
   py "not in a recognizable text format";
   py "not presented in a coherent, textual format";
   py "raw, binary data"].

(** [any(p in lower for p in bad_phrases)] *)
Definition has_bad_phrase (summary_text : pystr) : bool :=
  let lower := str_lower summary_text in
  existsb (fun p => contains p lower) bad_phrases.

(** The text placed in the prompt: truncated, then cleaned once more. *)
Definition document_content (text_content : pystr) : pystr :=
  _clean_extracted_text (truncate text_content).

Definition generate_summary (text_content : pystr) : M pystr :=
  let text_content := document_content text_content in
  choices <- invoke_model E (py "deepseek.v3-v1:0") (request_body text_content) ;;
  match choices with
  | [] => raise (IndexError (py "list index out of range"))
  | summary_text :: _ =>
      let summary_text := clean_summary summary_text in
      if has_bad_phrase summary_text then ret _generic_failure_summary
      else ret summary_text
  end.

(** [f"summaries/{original_key}.summary.txt"] *)
Definition summary_key_of (original_key : pystr) : pystr :=
  py "summaries/" ++ original_key ++ py ".summary.txt".

(** [str(n)] of a length. *)
Definition str_of_nat (n : nat) : pystr := py (pretty n).

Definition store_summary (original_key summary full_text : pystr) : M pystr :=
  let summary_key := summary_key_of original_key in
  now <- utcnow E ;;
  put_object E
    {| Bucket := OUTPUT_BUCKET E;
       Key := summary_key;
       Body := summary;
       ContentType := py "text/plain";
       Metadata := list_to_map
         [("original-document"%string, AStr original_key);
          ("summary-generated"%string, AStr (py "true"));
          ("text-length"%string, AStr (str_of_nat (length full_text)));
          ("summary-length"%string, AStr (str_of_nat (length summary)));
          ("processing-timestamp"%string, AInstant now)] |} ;;;
  ret summary_key.

(** [int(now.timestamp() + 30 * 24 * 60 * 60)] *)
Definition ttl_of (now : Z) : Z :=
  Z.quot (now + 30 * 24 * 60 * 60 * 1000000) 1000000.

(** The item [store_metadata] builds; [update] lets the additional data
    override. *)
Definition metadata_item (document_id document_key status : pystr) (timestamp : Z)
    (additional_data : option (gmap string attr)) (now : Z) : gmap string attr :=
  let item : gmap string attr := list_to_map
    [("document_id"%string, AStr document_id);
     ("processing_timestamp"%string, AInstant timestamp);
     ("document_key"%string, AStr document_key);
     ("processing_status"%string, AStr status);
     ("ttl"%string, ANum (ttl_of now))] in
  match additional_data with
  | Some d => if bool_decide (d = ∅) then item else d ∪ item
  | None => item
  end.

(** The [except] of [store_metadata] logs and returns. *)
Definition store_metadata (document_id document_key status : pystr) (timestamp : Z)
    (additional_data : option (gmap string attr)) : M unit :=
  try_except
    (now <- utcnow E ;;
     put_item E (metadata_item document_id document_key status timestamp additional_data now))
    (fun _ => ret tt).

Definition truthy (s : option pystr) : bool :=
  match s with
  | Some (_ :: _) => true
  | _ => false
  end.

Definition notification_message (document_id document_key : pystr)
    (summary_key : option pystr) (status : pystr) (error_message : option pystr)
    (now : Z) : gmap string attr :=
  let message : gmap string attr := list_to_map
    [("document_id"%string, AStr document_id);
     ("document_key"%string, AStr document_key);
     ("status"%string, AStr status);
     ("timestamp"%string, AInstant now)] in
  let message :=
    if truthy summary_key
    then <["summary_key"%string := AStr (default [] summary_key)]> message
    else message in
  if truthy error_message
  then <["error_message"%string := AStr (default [] error_message)]> message
  else message.

(** The [except] of [send_notification] logs and returns. *)
Definition send_notification (document_id document_key : pystr)
    (summary_key : option pystr) (status : pystr) (error_message : option pystr) : M unit :=
  try_except
    (now <- utcnow E ;;
     publish E
       {| TopicArn := NOTIFICATION_TOPIC E;
          Subject := py "Document Processing " ++ status ++ py ": " ++ document_key;
          Message := notification_message document_id document_key summary_key
                       status error_message now |})
    (fun _ => ret tt).

Definition UNKNOWN : pystr := py "UNKNOWN".

(** [document_id or "UNKNOWN"] *)
Definition or_unknown (document_id : option pystr) : pystr :=
  if truthy document_id then default [] document_id else UNKNOWN.

(** [key if "key" in locals() else "UNKNOWN"] *)
Definition key_or_unknown (key : option pystr) : pystr :=
  match key with
  | Some k => k
  | None => UNKNOWN
  end.

Definition no_text_message : pystr :=
  py "No text could be extracted from the document.".

(** The item written on failure. *)
Definition failed_data (e : exn) : gmap string attr :=
  {["error_message"%string := AStr (exn_str e)]}.

(** The [except Exception as e] of the handler: record the failure,
    notify, and raise [e] again.  [document_id] and [key] are the locals
    bound when the exception was raised. *)
Definition on_failure (document_id key : option pystr) (processing_timestamp : Z)
    (e : exn) : M response :=
  try_except
    (store_metadata (or_unknown document_id) (key_or_unknown key) (py "FAILED")
       processing_timestamp (Some (failed_data e)) ;;;
     send_notification (or_unknown document_id) (key_or_unknown key) None
       (py "FAILED") (Some (exn_str e)))
    (fun _ => ret tt) ;;;
  raise e.

Definition completed_data (summary_key : pystr) (text_length summary_length : nat)
    (processing_duration : Z) : gmap string attr :=
  list_to_map
    [("summary_key"%string, AStr summary_key);
     ("text_length"%string, ANum (Z.of_nat text_length));
     ("summary_length"%string, ANum (Z.of_nat summary_length));
     ("processing_duration"%string, ADuration processing_duration)].

(** The [try] block once [key] and [document_id] are bound. *)
Definition process_document (bucket key document_id : pystr)
    (processing_timestamp : Z) : M response :=
  store_metadata document_id key (py "PROCESSING") processing_timestamp None ;;;
  text_content <- extract_text bucket key ;;
  match strip text_content with
  | [] => raise (ValueError no_text_message)
  | _ =>
      summary <- generate_summary text_content ;;
      summary_key <- store_summary key summary text_content ;;
      now <- utcnow E ;;
      let processing_duration := (now - processing_timestamp)%Z in
      store_metadata document_id key (py "COMPLETED") processing_timestamp
        (Some (completed_data summary_key (length text_content) (length summary)
                 processing_duration)) ;;;
      send_notification document_id key (Some summary_key) (py "SUCCESS") None ;;;
      ret {| statusCode := 200;
             body := list_to_map
               [("message"%string, AStr (py "Document processed successfully"));
                ("document_id"%string, AStr document_id);
                ("document"%string, AStr key);
                ("summary_key"%string, AStr summary_key);
                ("summary_length"%string, ANum (Z.of_nat (length summary)))] |}
  end.

(** [lambda_handler(event, context)]; the event is its ["Records"]. *)
Definition lambda_handler (event : list s3_record) : M response :=
  processing_timestamp <- utcnow E ;;
  match event with
  | [] =>
      on_failure None None processing_timestamp
        (IndexError (py "list index out of range"))
  | r :: _ =>
      let bucket := bucket_name r in
      let key := unquote_plus (object_key r) in
      document_id <- uuid4 E ;;
      try_except (process_document bucket key document_id processing_timestamp)
        (on_failure (Some document_id) (Some key) processing_timestamp)
  end.

End Pipeline.

(** ** Sample environments

    A collaborator set with fixed answers, to run the model. *)

Definition bytes_of (s : pystr) : bytes :=
  List.map (fun c => default Byte.x00 (Byte.of_N c)) s.

Definition sample_env (stored : outcome bytes) (detected : outcome (list block))
    (answer : outcome (list pystr))
    (put_object_fault put_item_fault publish_fault : option exn) : env :=
  {| OUTPUT_BUCKET := py "summaries-bucket";
     NOTIFICATION_TOPIC := py "arn:aws:sns:topic";
     BEDROCK_MODEL_ID := py "deepseek.v3-v1:0";
     clock := fun n => (1700000000000000 + 250000 * Z.of_nat n)%Z;
     uuid := fun _ => py "0b0e6a3c-5f0d-4c1e-9d55-2f1f8a3c7e10";
     s3_get_object := fun _ _ _ => stored;
     s3_put_object := fun _ _ => put_object_fault;
     textract_detect_document_text := fun _ _ _ => detected;
     bedrock_invoke_model := fun _ _ _ => answer;
     dynamodb_put_item := fun _ _ => put_item_fault;
     sns_publish := fun _ _ => publish_fault |}.

(** A generator that answers [answer] to everything; nothing else fails. *)
Definition answering (answer : pystr) : env :=
  sample_env (Return []) (Return []) (Return [answer]) None None None.


(** ** Properties the statements speak of *)

(** A control character: C0, DEL and C1, other than newline and tab. *)
Definition control_character (c : N) : Prop :=
  ((c < 32)%N \/ (127 <= c < 160)%N) /\ c <> LF /\ c <> TAB.

(** What the character filter lets through. *)
Definition retained_character (c : N) : Prop :=
  c = LF \/ c = TAB \/ (32 <= c <= 126)%N \/ (160 <= c)%N.

(** A banned phrase occurs in [s], compared case-insensitively: it is a
    substring of the lower-cased [s]. *)
Definition mentions_banned_phrase `{RT : PyRuntime} (s : pystr) : Prop :=
  exists p pre post, In p bad_phrases /\ str_lower s = pre ++ p ++ post.

(** No whitespace at either end. *)
Definition trimmed (s : pystr) : Prop :=
  (forall c r, s = c :: r -> isspace c = false) /\
  (forall c r, s = r ++ [c] -> isspace c = false).

(** Asterisk and the three bullets the summarizer deletes everywhere. *)
Definition asterisk_or_bullet (c : N) : Prop :=
  c = 42%N \/ c = 8226%N \/ c = 9679%N \/ c = 9642%N.

(** The character that opens a markdown heading. *)
Definition HASH : N := 35%N.
Definition HYPHEN : N := 45%N.


Definition short_text : pystr := py "Meeting at 3pm.".

(** Three answers of a generator. *)
Definition corrupted_answer : pystr :=
  py "The file Appears To Be Corrupted and cannot be summarised.".
Definition dated_answer : pystr := py " - Due 2024-05-01 * ".
Definition heading_answer : pystr := py "# Summary".

(** ** The line rules of the sanitizer, in words *)

Section LineRules.
Context `{RT : PyRuntime}.

(** A line is blank when it is empty or all whitespace. *)
Definition blank (line : pystr) : Prop := forallb isspace line = true.

(** [line] starts with [marker], case-insensitively. *)
Definition starts_with_ci (marker line : pystr) : Prop :=
  exists rest, str_lower line = marker ++ rest.

Definition digits (s : pystr) : Prop := s <> [] /\ forallb isdecimal s = true.
Definition blanks (s : pystr) : Prop := s <> [] /\ forallb isspace s = true.

(** The whole line is digits, whitespace, digits, whitespace, obj. *)
Definition object_header (line : pystr) : Prop :=
  exists d1 w1 d2 w2,
    digits d1 /\ blanks w1 /\ digits d2 /\ blanks w2 /\
    line = d1 ++ w1 ++ d2 ++ w2 ++ py "obj".

(** The line is a container keyword, in any case. *)
Definition keyword_ci (line : pystr) : Prop :=
  In (str_lower line) container_keywords.

(** The line is a container keyword, letter for letter. *)
Definition keyword_exact (line : pystr) : Prop :=
  In line container_keywords.

(** The drop rule of the code. *)
Definition structural_marker (line : pystr) : Prop :=
  starts_with_ci (py "%pdf") line \/ starts_with_ci (py "%%eof") line \/
  object_header line \/ keyword_ci line.

(** The drop rule with the keywords compared letter for letter. *)
Definition structural_marker_exact_keywords (line : pystr) : Prop :=
  starts_with_ci (py "%pdf") line \/ starts_with_ci (py "%%eof") line \/
  object_header line \/ keyword_exact line.

(** What one input line contributes to the output lines under a drop
    rule: a blank line an empty line, a dropped line nothing, any other
    line itself, trimmed. *)
Definition line_contribution (dropped : pystr -> Prop) (line : pystr)
    (out : list pystr) : Prop :=
  (blank line /\ out = [[]]) \/
  (~ blank line /\ dropped (strip line) /\ out = []) \/
  (~ blank line /\ ~ dropped (strip line) /\ out = [strip line]).

End LineRules.

(** The raw text of the unsupported-format scenario. *)
Definition pdf_shell : pystr :=
  py "%PDF-1.4" ++ [LF] ++ py "1 0 obj" ++ [LF] ++ py "Hello World" ++ [LF] ++
  py "endobj" ++ [LF] ++ py "%%EOF".

(** Two patterns agree on the characters of [P] when they differ only in
    character classes that agree there. *)
Inductive agree (P : N -> Prop) : regex -> regex -> Prop :=
| agree_void : agree P Void Void
| agree_eps : agree P Eps Eps
| agree_cls p q : (forall c, P c -> p c = q c) -> agree P (Cls p) (Cls q)
| agree_cat r1 r2 r1' r2' :
    agree P r1 r1' -> agree P r2 r2' -> agree P (Cat r1 r2) (Cat r1' r2')
| agree_alt r1 r2 r1' r2' :
    agree P r1 r1' -> agree P r2 r2' -> agree P (Alt r1 r2) (Alt r1' r2')
| agree_star r r' : agree P r r' -> agree P (Star r) (Star r').

(** Detection reports the format as unsupported; the stored object is the
    PDF shell. *)
Definition unsupported_env : env :=
  sample_env (Return (bytes_of pdf_shell))
    (Raise (UnsupportedDocumentException (py "Unsupported document format")))
    (Return [py "1. A greeting."]) None None None.

(** ** Reading traces and tables *)

(** The items of the [put_item] calls of a trace, oldest first. *)
Definition items_put (t : list call) : list (gmap string attr) :=
  flat_map (fun c => match c with PutItem item => [item] | _ => [] end) t.

(** The number of requests to the generation service in a trace. *)
Definition generations (t : list call) : nat :=
  length (List.filter (fun c => match c with InvokeModel _ _ => true | _ => false end) t).

Definition status_of (item : gmap string attr) : option attr :=
  item !! "processing_status"%string.

(** From [s] to [s'] the table changed at most at key [k], and every item
    put carried the key [k]. *)
Definition writes_only (k : pystr * Z) (s s' : state) : Prop :=
  (forall k', k' <> k -> table s' !! k' = table s !! k') /\
  exists calls,
    trace s' = trace s ++ calls /\
    forall item, In item (items_put calls) -> item_key item = Some k.

Definition confined (k : pystr * Z) {A} (m : M A) : Prop :=
  forall s, writes_only k s (snd (m s)).

(** The upload of the scenarios. *)
Definition upload : s3_record :=
  {| bucket_name := py "uploads"; object_key := py "notes.txt" |}.

Definition notes : pystr := py "Meeting at 3pm." ++ [LF] ++ py "Budget: $500.".

(** Every collaborator answers. *)
Definition healthy_env : env :=
  sample_env (Return (bytes_of notes)) (Return [])
    (Return [py "1. A meeting at 3pm. 2. The budget is $500."]) None None None.

(** Every collaborator answers, except that the table rejects every
    write. *)
Definition table_down_env : env :=
  sample_env (Return (bytes_of notes)) (Return [])
    (Return [py "1. A meeting at 3pm. 2. The budget is $500."]) None
    (Some (ClientError (py "ProvisionedThroughputExceededException"))) None.

(** The output bucket rejects the artifact. *)
Definition bucket_down_env : env :=
  sample_env (Return (bytes_of notes)) (Return [])
    (Return [py "1. A meeting at 3pm. 2. The budget is $500."])
    (Some (ClientError (py "AccessDenied"))) None None.

(** The stored object holds only spaces and newlines. *)
Definition blank_env : env :=
  sample_env (Return (bytes_of (py "   " ++ [LF] ++ py "  "))) (Return [])
    (Return [py "1. Nothing."]) None None None.

(** A computation respects [R] when [R] relates the state before to the
    state after, however it ends. *)
Definition respects (R : state -> state -> Prop) {A} (m : M A) : Prop :=
  forall s, R s (snd (m s)).

(** No request went to the generation service from [s] to [s']. *)
Definition no_generation (s s' : state) : Prop :=
  generations (trace s') = generations (trace s).

Section Attempt.
Context `{RT : PyRuntime}.
Variable E : env.

(** The identity, the key and the start time of the attempt that begins
    in state [st] on record [r]. *)
Definition attempt_id (st : state) : pystr := uuid E (S (tick st)).
Definition attempt_key (r : s3_record) : pystr := unquote_plus (object_key r).
Definition attempt_start (st : state) : Z := clock E (tick st).

(** The state of that attempt once the PROCESSING record has been sent
    to the table. *)
Definition after_processing_record (r : s3_record) (st : state) : state :=
  snd (store_metadata E (attempt_id st) (attempt_key r) (py "PROCESSING")
         (attempt_start st) None (interact None (interact None st))).

(** The FAILED item of that attempt for the exception [e], built at the
    time [now]. *)
Definition failed_item (r : s3_record) (st : state) (e : exn) (now : Z) :
    gmap string attr :=
  metadata_item (or_unknown (Some (attempt_id st))) (attempt_key r) (py "FAILED")
    (attempt_start st) (Some (failed_data e)) now.

(** The FAILED notification of that attempt. *)
Definition failed_notification (r : s3_record) (st : state) (e : exn) (now : Z) :
    publish_request :=
  {| TopicArn := NOTIFICATION_TOPIC E;
     Subject := py "Document Processing " ++ py "FAILED" ++ py ": " ++ attempt_key r;
     Message := notification_message (or_unknown (Some (attempt_id st)))
                  (attempt_key r) None (py "FAILED") (Some (exn_str e)) now |}.

(** The arguments of the artifact write of that attempt. *)
Definition artifact_request (r : s3_record) (summary text : pystr) (now : Z) :
    put_object_request :=
  {| Bucket := OUTPUT_BUCKET E;
     Key := summary_key_of (attempt_key r);
     Body := summary;
     ContentType := py "text/plain";
     Metadata := list_to_map
       [("original-document"%string, AStr (attempt_key r));
        ("summary-generated"%string, AStr (py "true"));
        ("text-length"%string, AStr (str_of_nat (length text)));
        ("summary-length"%string, AStr (str_of_nat (length summary)));
        ("processing-timestamp"%string, AInstant now)] |}.

End Attempt.

Definition blank_text : pystr := py "   " ++ [LF] ++ py "  ".

(** The runs of the handler on the upload, from the initial state. *)
Definition healthy_run : outcome response * state :=
  lambda_handler (RT := ascii_runtime) healthy_env [upload] initial_state.

Definition table_down_run : outcome response * state :=
  lambda_handler (RT := ascii_runtime) table_down_env [upload] initial_state.

(** The key of the attempt of [healthy_run]. *)
Definition healthy_key : pystr * Z :=
  (py "0b0e6a3c-5f0d-4c1e-9d55-2f1f8a3c7e10", 1700000000000000%Z).

Definition bucket_down_run : outcome response * state :=
  lambda_handler (RT := ascii_runtime) bucket_down_env [upload] initial_state.

Definition sample_summary : pystr := py "1. A meeting at 3pm. 2. The budget is $500.".

(** ** Further readings of texts, traces and items *)

(** The characters of the lines of a text, one more per line for the
    newline that ends or joins it. *)
Definition weight (lines : list pystr) : nat :=
  fold_right (fun line n => (length line + 1 + n)%nat) 0%nat lines.

(** The calls that keep the books of an attempt: record writes and
    notifications. *)
Definition is_bookkeeping (c : call) : bool :=
  match c with
  | PutItem _ | Publish _ => true
  | _ => false
  end.

Definition bookkeeping (t : list call) : list call := List.filter is_bookkeeping t.

(** From [s] to [s'] no bookkeeping call was made. *)
Definition no_bookkeeping (s s' : state) : Prop :=
  bookkeeping (trace s') = bookkeeping (trace s).

(** From [s] to [s'] the output bucket changed at most at key [k]. *)
Definition objects_only (k : pystr * pystr) (s s' : state) : Prop :=
  forall k', k' <> k -> objects s' !! k' = objects s !! k'.

(** From [s] to [s'] the table did not change. *)
Definition same_table (s s' : state) : Prop := table s' = table s.

(** The texts of the LINE blocks, in order. *)
Definition line_block_texts (blocks : list block) : list pystr :=
  flat_map (fun b =>
    if bool_decide (BlockType b = Some (py "LINE"))
    then match Text b with Some t => [t] | None => [] end
    else []) blocks.

(** Every LINE block has its text. *)
Definition lines_have_text (blocks : list block) : Prop :=
  Forall (fun b => BlockType b = Some (py "LINE") -> Text b <> None) blocks.

Section MoreAttempt.
Context `{RT : PyRuntime}.
Variable E : env.


(** The COMPLETED item of that attempt: [finished] is the time the
    artifact was stored, [now] the time the item was built. *)
Definition completed_item (r : s3_record) (st : state) (text summary : pystr)
    (finished now : Z) : gmap string attr :=
  metadata_item (attempt_id E st) (attempt_key r) (py "COMPLETED")
    (attempt_start E st)
    (Some (completed_data (summary_key_of (attempt_key r)) (length text)
             (length summary) (finished - attempt_start E st)%Z))
    now.

(** The answer of the handler to a successful attempt. *)
Definition success_response (r : s3_record) (st : state) (summary : pystr) : response :=
  {| statusCode := 200;
     body := list_to_map
       [("message"%string, AStr (py "Document processed successfully"));
        ("document_id"%string, AStr (attempt_id E st));
        ("document"%string, AStr (attempt_key r));
        ("summary_key"%string, AStr (summary_key_of (attempt_key r)));
        ("summary_length"%string, ANum (Z.of_nat (length summary)))] |}.

End MoreAttempt.

(** ** The upload form (frontend/app.py) *)

Definition SUMMARY_PREFIX : pystr := py "summaries/".

(** [f"{SUMMARY_PREFIX}{filename}.summary.txt"], the key [upload_file]
    polls in the output bucket. *)
Definition polled_summary_key (filename : pystr) : pystr :=
  SUMMARY_PREFIX ++ filename ++ py ".summary.txt".

(** ** The earlier summarizer (asset 0700a5...) *)

Module Legacy.
Section Legacy.
Context `{RT : PyRuntime}.
Variable E : env.

Definition prompt (text_content : pystr) : pystr :=
  py "You write natural, human-sounding summaries of documents." ++ [LF; LF] ++
  py "Follow these rules strictly:" ++ [LF] ++
  py "- Do NOT apologize." ++ [LF] ++
  py "- Do NOT say things like 'the content you provided' or 'binary data'." ++ [LF] ++
  py "- Do NOT talk about encoding, PDF structure, or raw bytes." ++ [LF] ++
  py "- Do NOT use asterisks (" ++ [42%N] ++ py "), markdown, or bullet symbols." ++ [LF] ++
  py "- Write in plain text only, using numbered lines and short paragraphs." ++ [LF; LF] ++
  py "Your task:" ++ [LF] ++
  py "Summarize the following document clearly and concisely. Include:" ++ [LF] ++
  py "1. Main topics and key points" ++ [LF] ++
  py "2. Important facts, figures, and conclusions" ++ [LF] ++
  py "3. Actionable insights or recommendations" ++ [LF] ++
  py "4. Any critical deadlines or dates mentioned" ++ [LF; LF] ++
  py "Document content:" ++ [LF] ++
  text_content ++ [LF].

Definition request_body (text_content : pystr) : chat_body :=
  {| model := BEDROCK_MODEL_ID E;
     messages := [(py "user", prompt text_content)];
     max_tokens := 800;
     temperature := "0.1";
     top_p := "0.9" |}.

(** [summary_text.replace("*", "").strip()] *)
Definition clean_summary (summary_text : pystr) : pystr :=
  strip (replace_char 42 [] summary_text).

Definition generate_summary (text_content : pystr) : M pystr :=
  let text_content := document_content text_content in
  choices <- invoke_model E (py "deepseek.v3-v1:0") (request_body text_content) ;;
  match choices with
  | [] => raise (IndexError (py "list index out of range"))
  | summary_text :: _ => ret (clean_summary summary_text)
  end.

End Legacy.
End Legacy.

(** ** More sample environments *)

Definition line_block (t : pystr) : block :=
  {| BlockType := Some (py "LINE"); Text := Some t |}.
Definition word_block (t : pystr) : block :=
  {| BlockType := Some (py "WORD"); Text := Some t |}.
Definition page_block : block :=
  {| BlockType := Some (py "PAGE"); Text := None |}.

(** Detection finds a page of two lines. *)
Definition scanned_env : env :=
  sample_env (Return [])
    (Return [page_block; line_block (py "Hello"); word_block (py "Hello");
             line_block (py "World"); word_block (py "World")])
    (Return [py "1. A greeting."]) None None None.

(** Detection is throttled. *)
Definition throttled_env : env :=
  sample_env (Return (bytes_of notes))
    (Raise (ClientError (py "ThrottlingException")))
    (Return [py "1. A greeting."]) None None None.

(** Detection reports the format as unsupported and the object cannot be
    read. *)
Definition unreadable_env : env :=
  sample_env (Raise (ClientError (py "AccessDenied")))
    (Raise (UnsupportedDocumentException (py "Unsupported document format")))
    (Return [py "1. A greeting."]) None None None.

(** The generation service fails, or answers without a choice. *)
Definition generator_down_env : env :=
  sample_env (Return (bytes_of notes)) (Return [])
    (Raise (ClientError (py "ModelTimeoutException"))) None None None.
Definition no_choice_env : env :=
  sample_env (Return (bytes_of notes)) (Return []) (Return []) None None None.

(** The topic rejects every message. *)
Definition topic_down_env : env :=
  sample_env (Return (bytes_of notes)) (Return [])
    (Return [py "1. A meeting at 3pm. 2. The budget is $500."]) None None
    (Some (ClientError (py "AuthorizationError"))).

(** The arguments of the artifact write of [store_summary]. *)
Definition summary_object (E : env) (original_key summary full_text : pystr)
    (now : Z) : put_object_request :=
  {| Bucket := OUTPUT_BUCKET E;
     Key := summary_key_of original_key;
     Body := summary;
     ContentType := py "text/plain";
     Metadata := list_to_map
       [("original-document"%string, AStr original_key);
        ("summary-generated"%string, AStr (py "true"));
        ("text-length"%string, AStr (str_of_nat (length full_text)));
        ("summary-length"%string, AStr (str_of_nat (length summary)));
        ("processing-timestamp"%string, AInstant now)] |}.

(** The arguments of the one [publish] of [send_notification]. *)
Definition notification (E : env) (document_id document_key : pystr)
    (summary_key : option pystr) (status : pystr) (error_message : option pystr)
    (now : Z) : publish_request :=
  {| TopicArn := NOTIFICATION_TOPIC E;
     Subject := py "Document Processing " ++ status ++ py ": " ++ document_key;
     Message := notification_message document_id document_key summary_key
                  status error_message now |}.

(** The characters [clean_summary] lets through. *)
Definition kept_in_summary (c : N) : bool :=
  negb (existsb (N.eqb c) formatting_characters).

(** A generator that hyphenates its first answer. *)
Definition hyphenated_answer : pystr := py "The file ap-pears to be cor-rupted.".
Definition plain_answer : pystr := py "The file appears to be corrupted.".

Definition two_answers_env : env :=
  {| OUTPUT_BUCKET := py "summaries-bucket";
     NOTIFICATION_TOPIC := py "arn:aws:sns:topic";
     BEDROCK_MODEL_ID := py "deepseek.v3-v1:0";
     clock := fun n => (1700000000000000 + 250000 * Z.of_nat n)%Z;
     uuid := fun _ => py "0b0e6a3c-5f0d-4c1e-9d55-2f1f8a3c7e10";
     s3_get_object := fun _ _ _ => Return [];
     s3_put_object := fun _ _ => None;
     textract_detect_document_text := fun _ _ _ => Return [];
     bedrock_invoke_model := fun n _ _ =>
       match n with
       | O => Return [hyphenated_answer]
       | S _ => Return [plain_answer]
       end;
     dynamodb_put_item := fun _ _ => None;
     sns_publish := fun _ _ => None |}.

Section Success.
Context `{RT : PyRuntime}.
Variable E : env.

(** The state once the bucket has accepted the artifact of an attempt,
    written from state [st3]. *)
Definition after_artifact (r : s3_record) (summary text : pystr) (st3 : state) : state :=
  set_objects
    (<[(OUTPUT_BUCKET E, summary_key_of (attempt_key r)) :=
         artifact_request E r summary text (clock E (tick st3))]> (objects st3))
    (interact (Some (PutObject (artifact_request E r summary text (clock E (tick st3)))))
       (interact None st3)).

End Success.
(** ** Facts about strings *)

Lemma startswith_spec prefix s :
  startswith prefix s = true <-> exists rest, s = prefix ++ rest.
Proof.
  revert s. induction prefix as [|p prefix IH]; intros s; simpl.
  - split; [intros _; now exists s | reflexivity].
  - destruct s as [|c s].
    + split; [discriminate | intros [rest H]; discriminate].
    + rewrite andb_true_iff, N.eqb_eq, IH. split.
      * intros [-> [rest ->]]. now exists rest.
      * intros [rest H]. injection H as -> ->. split; [reflexivity | now exists rest].
Qed.

Lemma contains_spec sub s :
  contains sub s = true <-> exists pre post, s = pre ++ sub ++ post.
Proof.
  induction s as [|c s IH].
  - simpl. rewrite orb_false_r, startswith_spec. split.
    + intros [rest H]. now exists [], rest.
    + intros [pre [post H]]. destruct pre; [now exists post | discriminate].
  - cbn [contains]. rewrite orb_true_iff, startswith_spec, IH. split.
    + intros [[rest H] | [pre [post H]]].
      * now exists [], rest.
      * exists (c :: pre), post. simpl. now rewrite H.
    + intros [pre [post H]]. destruct pre as [|c' pre].
      * left. now exists post.
      * right. injection H as _ H. now exists pre, post.
Qed.

Lemma replace_char_delete ch s :
  replace_char ch [] s = List.filter (fun c => negb (N.eqb c ch)) s.
Proof.
  induction s as [|c s IH]; [reflexivity|].
  unfold replace_char in *. simpl. rewrite IH.
  now destruct (N.eqb c ch).
Qed.

Lemma lstrip_spec s :
  exists pre, s = pre ++ lstrip s /\ forallb isspace pre = true.
Proof.
  induction s as [|c s [pre [H1 H2]]]; [now exists []|].
  simpl. destruct (isspace c) eqn:Hc.
  - exists (c :: pre). simpl. rewrite Hc, H2. now rewrite <- H1.
  - now exists [].
Qed.

Lemma lstrip_head s c r : lstrip s = c :: r -> isspace c = false.
Proof.
  induction s as [|x s IH]; simpl; [discriminate|].
  destruct (isspace x) eqn:Hx; [exact IH|].
  intros H. injection H as -> _. exact Hx.
Qed.

Lemma lstrip_nil s : lstrip s = [] <-> forallb isspace s = true.
Proof.
  induction s as [|c s IH]; simpl; [tauto|].
  destruct (isspace c); simpl; [exact IH | split; discriminate].
Qed.

Lemma rstrip_spec s :
  exists suf, s = rstrip s ++ suf /\ forallb isspace suf = true.
Proof.
  unfold rstrip. destruct (lstrip_spec (rev s)) as [pre [H1 H2]].
  exists (rev pre). split.
  - rewrite <- rev_app_distr, <- H1. now rewrite rev_involutive.
  - rewrite forallb_forall in *. intros x Hx. apply H2. now apply in_rev.
Qed.

Lemma rstrip_last s c r : rstrip s = r ++ [c] -> isspace c = false.
Proof.
  unfold rstrip. intros H. apply (f_equal (@rev N)) in H.
  rewrite rev_involutive, rev_app_distr in H. simpl in H.
  exact (lstrip_head _ _ _ H).
Qed.

Lemma forallb_rev {A} (f : A -> bool) l : forallb f (rev l) = forallb f l.
Proof.
  induction l as [|a l IH]; [reflexivity|].
  simpl. rewrite forallb_app, IH. simpl. rewrite andb_true_r. apply andb_comm.
Qed.

(** A string strips to nothing exactly when it is empty or all
    whitespace. *)
Lemma strip_nil s : strip s = [] <-> forallb isspace s = true.
Proof.
  unfold strip, rstrip. split.
  - intros H. apply (f_equal (@rev N)) in H. rewrite rev_involutive in H.
    simpl in H. apply lstrip_nil in H. rewrite forallb_rev in H.
    destruct (lstrip_spec s) as [pre [H1 H2]].
    destruct (lstrip s) as [|c r] eqn:Hs.
    + rewrite app_nil_r in H1. now subst.
    + apply lstrip_head in Hs. simpl in H. now rewrite Hs in H.
  - intros H. apply lstrip_nil in H. rewrite H. reflexivity.
Qed.

Lemma strip_head s c r : strip s = c :: r -> isspace c = false.
Proof.
  unfold strip. intros H.
  destruct (rstrip_spec (lstrip s)) as [suf [H1 _]].
  rewrite H in H1. simpl in H1. exact (lstrip_head _ _ _ H1).
Qed.

Lemma strip_last s c r : strip s = r ++ [c] -> isspace c = false.
Proof. unfold strip. apply rstrip_last. Qed.

Lemma strip_incl s c : In c (strip s) -> In c s.
Proof.
  unfold strip. intros H.
  destruct (rstrip_spec (lstrip s)) as [suf [H1 _]].
  destruct (lstrip_spec s) as [pre [H2 _]].
  rewrite H2, H1. apply in_or_app. right. apply in_or_app. now left.
Qed.

(** ** The character filter of the sanitizer *)

Lemma printable_spec ch :
  printable ch = true <->
  ch = LF \/ ch = TAB \/ (32 <= ch <= 126)%N \/ (160 <= ch)%N.
Proof.
  unfold printable, LF, TAB.
  rewrite !orb_true_iff, andb_true_iff, !N.eqb_eq, !N.leb_le. tauto.
Qed.

(** ** The sanitizer's output alphabet *)

(** C6: every character of the sanitizer's output is a newline, a tab,
    printable ASCII (32 to 126) or at or above code point 160; no control
    character survives. *)
Theorem sanitize_output_alphabet `{RT : PyRuntime} (raw : pystr) :
  Forall (fun c => retained_character c /\ ~ control_character c)
         (_clean_extracted_text raw).
Proof.
  unfold _clean_extracted_text. apply List.Forall_forall. intros c Hc.
  apply List.filter_In in Hc as [_ Hc]. apply printable_spec in Hc.
  split; [exact Hc|].
  unfold control_character, LF, TAB in *. lia.
Qed.

(** ** The summarizer *)

Section Summarizer.
Context `{RT : PyRuntime}.
Variable E : env.

Lemma has_bad_phrase_spec s :
  has_bad_phrase s = true <-> mentions_banned_phrase s.
Proof.
  unfold has_bad_phrase, mentions_banned_phrase. rewrite existsb_exists. split.
  - intros [p [Hp Hc]]. apply contains_spec in Hc as [pre [post Hc]].
    now exists p, pre, post.
  - intros [p [pre [post [Hp Hc]]]]. exists p. split; [exact Hp|].
    apply contains_spec. now exists pre, post.
Qed.

(** The loop over the formatting characters is one filter. *)
Lemma clean_summary_filter s :
  clean_summary s =
  strip (List.filter (fun c => negb (existsb (N.eqb c) formatting_characters)) s).
Proof.
  unfold clean_summary, formatting_characters. simpl fold_left.
  rewrite !replace_char_delete. f_equal.
  induction s as [|c s IH]; [reflexivity|].
  cbn [List.filter existsb].
  destruct (N.eqb c 42) eqn:H1; cbn [negb orb List.filter]; [exact IH|].
  destruct (N.eqb c 8226) eqn:H2; cbn [negb orb List.filter]; [exact IH|].
  destruct (N.eqb c 9679) eqn:H3; cbn [negb orb List.filter]; [exact IH|].
  destruct (N.eqb c 45) eqn:H4; cbn [negb orb List.filter]; [exact IH|].
  destruct (N.eqb c 9642) eqn:H5; cbn [negb orb List.filter]; [exact IH|].
  now rewrite IH.
Qed.

Lemma clean_summary_no_formatting s c :
  In c formatting_characters -> ~ In c (clean_summary s).
Proof.
  intros Hc Hin. rewrite clean_summary_filter in Hin.
  apply strip_incl, List.filter_In in Hin as [_ Hin].
  apply negb_true_iff in Hin.
  assert (existsb (N.eqb c) formatting_characters = true) as Hex; [|congruence].
  apply existsb_exists. exists c. split; [exact Hc | apply N.eqb_refl].
Qed.

Lemma clean_summary_trimmed s : trimmed (clean_summary s).
Proof.
  unfold clean_summary. split; intros c r H.
  - exact (strip_head _ _ _ H).
  - exact (strip_last _ _ _ H).
Qed.

(** What one call of [generate_summary] does, by the generator's answer. *)
Lemma generate_summary_run text st :
  generate_summary E text st =
  let request := request_body E (document_content text) in
  let st' := interact (Some (InvokeModel (py "deepseek.v3-v1:0") request)) st in
  match bedrock_invoke_model E (tick st) (py "deepseek.v3-v1:0") request with
  | Return (answer :: _) =>
      (Return (if has_bad_phrase (clean_summary answer)
               then _generic_failure_summary else clean_summary answer), st')
  | Return [] => (Raise (IndexError (py "list index out of range")), st')
  | Raise e => (Raise e, st')
  end.
Proof.
  unfold generate_summary, bind, invoke_model. cbv zeta.
  destruct (bedrock_invoke_model E _ _ _) as [[|answer rest]|e]; try reflexivity.
  now destruct (has_bad_phrase (clean_summary answer)).
Qed.


(** C10: when no banned phrase matches the cleaned answer, the summary
    holds none of the characters asterisk, bullet, black circle, hyphen,
    small square, and has no whitespace at either end; every hyphen of the
    answer is gone, while all other characters between the ends are kept
    in order. *)
Theorem clean_answer_loses_formatting text st answer rest :
  bedrock_invoke_model E (tick st) (py "deepseek.v3-v1:0")
    (request_body E (document_content text)) = Return (answer :: rest) ->
  ~ mentions_banned_phrase (clean_summary answer) ->
  exists summary,
    fst (generate_summary E text st) = Return summary /\
    (forall c, In c formatting_characters -> ~ In c summary) /\
    trimmed summary /\
    ~ In HYPHEN summary /\
    summary = strip (List.filter
      (fun c => negb (existsb (N.eqb c) formatting_characters)) answer).
Proof.
  intros Hans Hno. exists (clean_summary answer). split.
  { rewrite generate_summary_run. cbv zeta. rewrite Hans. simpl.
    destruct (has_bad_phrase (clean_summary answer)) eqn:Hb; [|reflexivity].
    apply has_bad_phrase_spec in Hb. contradiction. }
  split; [intros c; apply clean_summary_no_formatting|].
  split; [apply clean_summary_trimmed|].
  split; [|apply clean_summary_filter].
  apply clean_summary_no_formatting. unfold formatting_characters, HYPHEN.
  simpl. tauto.
Qed.

Lemma fallback_no_asterisk_or_bullet c :
  asterisk_or_bullet c -> ~ In c _generic_failure_summary.
Proof.
  intros Hc Hin.
  assert (forallb (fun x => negb ((x =? 42) || (x =? 8226) || (x =? 9679) || (x =? 9642))%N)
            _generic_failure_summary = true) as Hall by (vm_compute; reflexivity).
  rewrite forallb_forall in Hall. specialize (Hall c Hin).
  apply negb_true_iff in Hall. rewrite !orb_false_iff, !N.eqb_neq in Hall.
  unfold asterisk_or_bullet in Hc. intuition congruence.
Qed.

(** C9 as the code has it: whatever the input and whatever the generator
    answers, the summary holds no asterisk and none of the bullets
    U+2022, U+25CF, U+25AA. *)
Theorem summary_has_no_asterisk_or_bullet text st answer rest :
  bedrock_invoke_model E (tick st) (py "deepseek.v3-v1:0")
    (request_body E (document_content text)) = Return (answer :: rest) ->
  exists summary,
    fst (generate_summary E text st) = Return summary /\
    forall c, asterisk_or_bullet c -> ~ In c summary.
Proof.
  intros Hans. rewrite generate_summary_run. cbv zeta. rewrite Hans. simpl.
  eexists. split; [reflexivity|]. intros c Hc.
  destruct (has_bad_phrase (clean_summary answer)).
  - now apply fallback_no_asterisk_or_bullet.
  - apply clean_summary_no_formatting. unfold asterisk_or_bullet in Hc.
    unfold formatting_characters. simpl. intuition.
Qed.


End Summarizer.

(** ** The summarizer on sample answers *)


Lemma clean_answer_loses_formatting_witness :
  bedrock_invoke_model (answering dated_answer) (tick initial_state)
    (py "deepseek.v3-v1:0")
    (request_body (answering dated_answer)
       (document_content (RT := ascii_runtime) short_text))
    = Return [dated_answer] /\
  ~ mentions_banned_phrase (RT := ascii_runtime) (clean_summary dated_answer) /\
  exists summary,
    fst (generate_summary (RT := ascii_runtime) (answering dated_answer)
           short_text initial_state) = Return summary /\
    (forall c, In c formatting_characters -> ~ In c summary) /\
    trimmed summary /\
    ~ In HYPHEN summary /\
    summary = strip (List.filter
      (fun c => negb (existsb (N.eqb c) formatting_characters)) dated_answer).
Proof.
  assert (~ mentions_banned_phrase (RT := ascii_runtime)
            (clean_summary dated_answer)) as Hno.
  { intros H. apply (has_bad_phrase_spec (RT := ascii_runtime)) in H.
    vm_compute in H. discriminate H. }
  split; [reflexivity|]. split; [exact Hno|].
  exact (clean_answer_loses_formatting (RT := ascii_runtime)
           (answering dated_answer) short_text initial_state dated_answer []
           eq_refl Hno).
Defined.

(** The dates of the answer lose their hyphens. *)
Example dated_answer_summary :
  fst (generate_summary (RT := ascii_runtime) (answering dated_answer)
         short_text initial_state) = Return (py "Due 20240501").
Proof. vm_compute. reflexivity. Qed.

Lemma summary_has_no_asterisk_or_bullet_witness :
  bedrock_invoke_model (answering dated_answer) (tick initial_state)
    (py "deepseek.v3-v1:0")
    (request_body (answering dated_answer)
       (document_content (RT := ascii_runtime) short_text))
    = Return [dated_answer] /\
  exists summary,
    fst (generate_summary (RT := ascii_runtime) (answering dated_answer)
           short_text initial_state) = Return summary /\
    forall c, asterisk_or_bullet c -> ~ In c summary.
Proof.
  split; [reflexivity|].
  exact (summary_has_no_asterisk_or_bullet (RT := ascii_runtime)
           (answering dated_answer) short_text initial_state dated_answer []
           eq_refl).
Defined.

(** C9 as stated fails: a plain text under the budget, a generator that
    answers with a markdown heading, and the heading character is in the
    summary. *)
Lemma heading_character_survives :
  (length short_text <= max_length)%nat /\
  fst (generate_summary (RT := ascii_runtime) (answering heading_answer)
         short_text initial_state) = Return (py "# Summary") /\
  In HASH (py "# Summary").
Proof.
  split; [apply Nat.leb_le; vm_compute; reflexivity|].
  split; [vm_compute; reflexivity|].
  vm_compute. now left.
Qed.



(** ** The derivative matcher decides the language of a pattern *)

Lemma lang_cat_inv r1 r2 s :
  lang (Cat r1 r2) s <-> exists s1 s2, s = s1 ++ s2 /\ lang r1 s1 /\ lang r2 s2.
Proof.
  split.
  - intros H. inversion H; subst. eauto.
  - intros [s1 [s2 [-> [H1 H2]]]]. now constructor.
Qed.

Lemma lang_alt_inv r1 r2 s : lang (Alt r1 r2) s <-> lang r1 s \/ lang r2 s.
Proof.
  split.
  - intros H. inversion H; subst; tauto.
  - intros [H | H]; [now apply lang_alt_l | now apply lang_alt_r].
Qed.

Lemma lang_eps_inv s : lang Eps s <-> s = [].
Proof.
  split; [intros H; now inversion H | intros ->; constructor].
Qed.

Lemma lang_cls_inv p s : lang (Cls p) s <-> exists c, s = [c] /\ p c = true.
Proof.
  split.
  - intros H. inversion H; subst. eauto.
  - intros [c [-> H]]. now constructor.
Qed.

Lemma lang_void_inv s : ~ lang Void s.
Proof. intros H. inversion H. Qed.

(** A non-empty word of a star starts with a non-empty word of its body. *)
Lemma lang_star_cons_inv r c s :
  lang (Star r) (c :: s) ->
  exists s1 s2, s = s1 ++ s2 /\ lang r (c :: s1) /\ lang (Star r) s2.
Proof.
  intros H. remember (Star r) as r' eqn:Hr. remember (c :: s) as w eqn:Hw.
  revert Hr Hw. induction H; intros Hr Hw; try discriminate.
  injection Hr as ->. destruct s1 as [|c1 s1].
  - simpl in Hw. now apply IHlang2.
  - simpl in Hw. injection Hw as -> <-. now exists s1, s2.
Qed.

Lemma nullable_spec r : nullable r = true <-> lang r [].
Proof.
  induction r as [| |p|r1 IH1 r2 IH2|r1 IH1 r2 IH2|r IH]; simpl.
  - split; [discriminate | intros H; now apply lang_void_inv in H].
  - split; [constructor | reflexivity].
  - split; [discriminate|]. intros H. apply lang_cls_inv in H as [c [H _]].
    discriminate.
  - rewrite andb_true_iff, IH1, IH2, lang_cat_inv. split.
    + intros [H1 H2]. now exists [], [].
    + intros [s1 [s2 [Hs [H1 H2]]]]. symmetry in Hs.
      apply app_eq_nil in Hs as [-> ->]. tauto.
  - rewrite orb_true_iff, IH1, IH2, lang_alt_inv. tauto.
  - split; [constructor | reflexivity].
Qed.

Lemma deriv_spec c r : forall s, lang (deriv c r) s <-> lang r (c :: s).
Proof.
  induction r as [| |p|r1 IH1 r2 IH2|r1 IH1 r2 IH2|r IH]; intros s; simpl.
  - split; intros H; now apply lang_void_inv in H.
  - split; intros H; [now apply lang_void_inv in H|].
    apply lang_eps_inv in H. discriminate.
  - rewrite lang_cls_inv. destruct (p c) eqn:Hp.
    + rewrite lang_eps_inv. split.
      * intros ->. now exists c.
      * intros [c' [H _]]. now injection H.
    + split; [intros H; now apply lang_void_inv in H|].
      intros [c' [H Hp']]. injection H as <- _. congruence.
  - assert (lang (Cat (deriv c r1) r2) s <->
            exists s1 s2, s = s1 ++ s2 /\ lang r1 (c :: s1) /\ lang r2 s2) as Hcat.
    { rewrite lang_cat_inv. split; intros [s1 [s2 [Hs [H1 H2]]]];
        exists s1, s2; (split; [exact Hs|]); (split; [|exact H2]);
        now apply IH1. }
    rewrite (lang_cat_inv r1 r2 (c :: s)).
    destruct (nullable r1) eqn:Hn.
    + rewrite lang_alt_inv, Hcat, IH2. split.
      * intros [[s1 [s2 [-> [H1 H2]]]] | H].
        -- now exists (c :: s1), s2.
        -- exists [], (c :: s). split; [reflexivity|].
           split; [now apply nullable_spec | exact H].
      * intros [s1 [s2 [Hs [H1 H2]]]]. destruct s1 as [|c1 s1].
        -- right. simpl in Hs. now rewrite Hs.
        -- left. simpl in Hs. injection Hs as <- ->. now exists s1, s2.
    + rewrite Hcat. split.
      * intros [s1 [s2 [-> [H1 H2]]]]. now exists (c :: s1), s2.
      * intros [s1 [s2 [Hs [H1 H2]]]]. destruct s1 as [|c1 s1].
        -- apply nullable_spec in H1. congruence.
        -- simpl in Hs. injection Hs as <- ->. now exists s1, s2.
  - rewrite !lang_alt_inv, IH1, IH2. tauto.
  - rewrite lang_cat_inv. split.
    + intros [s1 [s2 [-> [H1 H2]]]]. apply IH in H1.
      now apply (lang_star_cons r (c :: s1) s2).
    + intros H. apply lang_star_cons_inv in H as [s1 [s2 [-> [H1 H2]]]].
      exists s1, s2. split; [reflexivity|]. split; [now apply IH | exact H2].
Qed.

Theorem fullmatch_spec r s : fullmatch r s = true <-> lang r s.
Proof.
  revert r. induction s as [|c s IH]; intros r; simpl.
  - apply nullable_spec.
  - rewrite IH. apply deriv_spec.
Qed.

(** The words of a repeated character class. *)
Lemma lang_star_cls p s : lang (Star (Cls p)) s <-> forallb p s = true.
Proof.
  induction s as [|c s IH]; simpl.
  - split; [reflexivity | constructor].
  - rewrite andb_true_iff, <- IH. split.
    + intros H. apply lang_star_cons_inv in H as [s1 [s2 [-> [H1 H2]]]].
      apply lang_cls_inv in H1 as [c' [H1 Hp]]. injection H1 as <- ->.
      now split.
    + intros [Hp H]. apply (lang_star_cons (Cls p) [c] s); [now constructor | exact H].
Qed.

Lemma lang_plus_cls p s :
  lang (Plus (Cls p)) s <-> s <> [] /\ forallb p s = true.
Proof.
  unfold Plus. rewrite lang_cat_inv. split.
  - intros [s1 [s2 [-> [H1 H2]]]]. apply lang_cls_inv in H1 as [c [-> Hp]].
    apply lang_star_cls in H2. simpl. rewrite Hp, H2. now split.
  - intros [Hne H]. destruct s as [|c s]; [contradiction|].
    simpl in H. apply andb_true_iff in H as [Hp H].
    exists [c], s. split; [reflexivity|].
    split; [now constructor | now apply lang_star_cls].
Qed.

Lemma lang_lit l s : lang (Lit l) s <-> s = l.
Proof.
  revert s. induction l as [|c l IH]; intros s; simpl.
  - apply lang_eps_inv.
  - rewrite lang_cat_inv. split.
    + intros [s1 [s2 [-> [H1 H2]]]]. apply lang_cls_inv in H1 as [c' [-> Hc]].
      apply N.eqb_eq in Hc. apply IH in H2. now subst.
    + intros ->. exists [c], l. split; [reflexivity|]. split.
      * constructor. apply N.eqb_refl.
      * now apply IH.
Qed.

Lemma lang_dollar s : lang dollar s <-> s = [] \/ s = [LF].
Proof.
  unfold dollar, Chr. rewrite lang_alt_inv, lang_eps_inv, lang_cls_inv. split.
  - intros [H | [c [-> Hc]]]; [now left|]. apply N.eqb_eq in Hc. subst. now right.
  - intros [H | ->]; [now left|]. right. exists LF. split; [reflexivity | apply N.eqb_refl].
Qed.

(** ** The line pass of the sanitizer *)

Lemma in_tuple_spec s t : in_tuple s t = true <-> In s t.
Proof.
  unfold in_tuple, pystr_eqb. rewrite existsb_exists. split.
  - intros [x [Hx Heq]]. apply bool_decide_eq_true in Heq. now subst.
  - intros H. exists s. split; [exact H | now apply bool_decide_eq_true].
Qed.

Section LinePass.
Context `{RT : PyRuntime}.

(** On a trimmed line the pattern matches exactly the object headers. *)
Lemma re_match_obj_spec t :
  (forall c r, t = r ++ [c] -> isspace c = false) ->
  re_match obj_pattern t = true <-> object_header t.
Proof.
  intros Hlast. unfold re_match, obj_pattern, object_header, digits, blanks.
  rewrite fullmatch_spec. split.
  - intros H.
    apply lang_cat_inv in H as [d1 [x1 [-> [Hd1 H]]]].
    apply lang_cat_inv in H as [w1 [x2 [-> [Hw1 H]]]].
    apply lang_cat_inv in H as [d2 [x3 [-> [Hd2 H]]]].
    apply lang_cat_inv in H as [w2 [x4 [-> [Hw2 H]]]].
    apply lang_cat_inv in H as [o [tl [-> [Ho Htl]]]].
    apply lang_plus_cls in Hd1, Hw1, Hd2, Hw2. apply lang_lit in Ho. subst o.
    apply lang_dollar in Htl as [-> | ->].
    + exists d1, w1, d2, w2. rewrite app_nil_r. tauto.
    + exfalso. specialize (Hlast LF (d1 ++ w1 ++ d2 ++ w2 ++ py "obj")).
      rewrite <- !app_assoc in Hlast. specialize (Hlast eq_refl).
      discriminate Hlast.
  - intros [d1 [w1 [d2 [w2 [Hd1 [Hw1 [Hd2 [Hw2 ->]]]]]]]].
    apply lang_cat; [now apply lang_plus_cls|].
    apply lang_cat; [now apply lang_plus_cls|].
    apply lang_cat; [now apply lang_plus_cls|].
    apply lang_cat; [now apply lang_plus_cls|].
    rewrite <- (app_nil_r (py "obj")).
    apply lang_cat; [now apply lang_lit | apply lang_dollar; now left].
Qed.

(** One pass of the loop appends the contribution of its line. *)
Lemma clean_line_spec cleaned_lines line :
  exists out,
    line_contribution structural_marker line out /\
    clean_line cleaned_lines line = cleaned_lines ++ out.
Proof.
  unfold clean_line, line_contribution, blank.
  destruct (strip line) as [|c t] eqn:Hs.
  - exists [[]]. split; [|reflexivity]. left. split; [|reflexivity].
    now apply strip_nil.
  - assert (~ forallb isspace line = true) as Hnb.
    { intros H. apply strip_nil in H. congruence. }
    assert (forall c' r, c :: t = r ++ [c'] -> isspace c' = false) as Hlast.
    { intros c' r H. rewrite <- Hs in H. exact (strip_last _ _ _ H). }
    unfold structural_marker, starts_with_ci, keyword_ci.
    destruct (startswith (py "%pdf") (str_lower (c :: t))) eqn:H1.
    { exists []. rewrite app_nil_r. split; [|reflexivity]. right. left.
      apply startswith_spec in H1. tauto. }
    destruct (startswith (py "%%eof") (str_lower (c :: t))) eqn:H2.
    { exists []. rewrite app_nil_r. split; [|reflexivity]. right. left.
      apply startswith_spec in H2. tauto. }
    destruct (re_match obj_pattern (c :: t)) eqn:H3.
    { exists []. rewrite app_nil_r. split; [|reflexivity]. right. left.
      apply (re_match_obj_spec _ Hlast) in H3. tauto. }
    destruct (in_tuple (str_lower (c :: t)) container_keywords) eqn:H4.
    { exists []. rewrite app_nil_r. split; [|reflexivity]. right. left.
      apply in_tuple_spec in H4. tauto. }
    exists [c :: t]. split; [|reflexivity]. right. right.
    split; [exact Hnb|]. split; [|reflexivity].
    intros [H | [H | [H | H]]].
    + apply startswith_spec in H. congruence.
    + apply startswith_spec in H. congruence.
    + apply (re_match_obj_spec _ Hlast) in H. congruence.
    + apply in_tuple_spec in H. congruence.
Qed.

Lemma clean_lines_spec lines : forall cleaned_lines,
  exists kept,
    Forall2 (line_contribution structural_marker) lines kept /\
    fold_left clean_line lines cleaned_lines = cleaned_lines ++ concat kept.
Proof.
  induction lines as [|line lines IH]; intros acc; simpl.
  - exists []. split; [constructor | now rewrite app_nil_r].
  - destruct (clean_line_spec acc line) as [out [Hout Heq]].
    destruct (IH (clean_line acc line)) as [kept [Hkept Hfold]].
    exists (out :: kept). split; [now constructor|].
    rewrite Hfold, Heq. simpl. now rewrite app_assoc.
Qed.

(** C7 as the code has it: the sanitizer goes through the lines of its
    input; a blank line gives an empty line; any other line is trimmed and
    dropped exactly when it starts, in any case, with the PDF marker or
    the end-of-file marker, is digits, whitespace, digits, whitespace, obj,
    or is, in any case, one of endobj, stream, endstream; the lines kept
    are joined with newlines, and the character filter runs over the
    result. *)
Theorem sanitize_line_by_line (raw : pystr) :
  exists kept,
    Forall2 (line_contribution structural_marker) (splitlines raw) kept /\
    _clean_extracted_text raw =
      List.filter printable (join [LF] (concat kept)).
Proof.
  destruct (clean_lines_spec (splitlines raw) []) as [kept [Hkept Hfold]].
  exists kept. split; [exact Hkept|].
  unfold _clean_extracted_text. cbv zeta. now rewrite Hfold.
Qed.

End LinePass.

(** C7 as stated fails: the line ENDOBJ is not blank, is trimmed already,
    meets none of the stated drop conditions (it is no keyword letter for
    letter), and the sanitizer drops it. *)
Lemma upper_case_keyword_is_dropped :
  splitlines (py "ENDOBJ") = [py "ENDOBJ"] /\
  strip (py "ENDOBJ") = py "ENDOBJ" /\
  ~ structural_marker_exact_keywords (RT := ascii_runtime) (py "ENDOBJ") /\
  _clean_extracted_text (RT := ascii_runtime) (py "ENDOBJ") = [].
Proof.
  split; [vm_compute; reflexivity|].
  assert (strip (py "ENDOBJ") = py "ENDOBJ") as Hs by (vm_compute; reflexivity).
  split; [exact Hs|]. split; [|vm_compute; reflexivity].
  intros [H | [H | [H | H]]].
  - apply startswith_spec in H. vm_compute in H. discriminate H.
  - apply startswith_spec in H. vm_compute in H. discriminate H.
  - apply (re_match_obj_spec (RT := ascii_runtime)) in H.
    + vm_compute in H. discriminate H.
    + intros c r Hr. rewrite <- Hs in Hr. exact (strip_last _ _ _ Hr).
  - apply in_tuple_spec in H. vm_compute in H. discriminate H.
Qed.

(** ** Any runtime agrees with the ASCII one on ASCII text *)

Lemma agree_refl P r : agree P r r.
Proof. induction r; now constructor. Qed.

Lemma agree_nullable P r r' : agree P r r' -> nullable r = nullable r'.
Proof. induction 1; simpl; congruence. Qed.

Lemma agree_deriv P c r r' :
  P c -> agree P r r' -> agree P (deriv c r) (deriv c r').
Proof.
  intros Hc. induction 1 as [| |p q Hpq|r1 r2 r1' r2' H1 IH1 H2 IH2
                             |r1 r2 r1' r2' H1 IH1 H2 IH2|r r' H IH]; simpl.
  - constructor.
  - constructor.
  - rewrite (Hpq c Hc). destruct (q c); constructor.
  - rewrite (agree_nullable P r1 r1' H1).
    destruct (nullable r1'); repeat constructor; assumption.
  - now constructor.
  - repeat constructor; assumption.
Qed.

Lemma agree_fullmatch P s :
  Forall P s -> forall r r', agree P r r' -> fullmatch r s = fullmatch r' s.
Proof.
  induction 1 as [|c s Hc Hs IH]; intros r r' Hr; simpl.
  - now apply (agree_nullable P).
  - apply IH. now apply agree_deriv.
Qed.

Lemma forallb_strip (f : N -> bool) s :
  forallb f s = true -> forallb f (strip s) = true.
Proof.
  rewrite !forallb_forall. intros H c Hc. apply H. now apply strip_incl.
Qed.

(** Every line of [splitlines] is made of characters of the text. *)
Lemma splitlines_from_forallb (f : N -> bool) n : forall s cur,
  (length s <= n)%nat ->
  forallb f cur = true -> forallb f s = true ->
  Forall (fun line => forallb f line = true) (splitlines_from cur s).
Proof.
  induction n as [|n IH]; intros s cur Hn Hcur Hs.
  - destruct s; [|simpl in Hn; lia]. simpl.
    destruct cur; [constructor|]. constructor; [|constructor].
    now rewrite forallb_rev.
  - destruct s as [|c s]; simpl.
    + destruct cur; [constructor|]. constructor; [|constructor].
      now rewrite forallb_rev.
    + simpl in Hn, Hs. apply andb_true_iff in Hs as [Hc Hs].
      assert (forallb f (rev cur) = true) as Hrev by now rewrite forallb_rev.
      destruct (N.eqb c 13).
      * destruct s as [|c' s'].
        -- constructor; [exact Hrev | constructor].
        -- simpl in Hn, Hs. apply andb_true_iff in Hs as [Hc' Hs'].
           destruct (N.eqb c' 10); (constructor; [exact Hrev|]).
           ++ apply IH; [lia | reflexivity | exact Hs'].
           ++ apply IH; [simpl; lia | reflexivity |].
              simpl. now rewrite Hc', Hs'.
      * destruct (is_linebreak c).
        -- constructor; [exact Hrev|]. apply IH; [lia | reflexivity | exact Hs].
        -- apply IH; [lia | | exact Hs]. simpl. now rewrite Hc, Hcur.
Qed.

Lemma splitlines_forallb (f : N -> bool) s :
  forallb f s = true ->
  Forall (fun line => forallb f line = true) (splitlines s).
Proof.
  intros H. now apply (splitlines_from_forallb f (length s)).
Qed.

Section AsciiAgreement.
Context `{RT : PyRuntime}.

Lemma obj_pattern_agree :
  agree (fun c => is_ascii c = true)
    (obj_pattern (RT := RT)) (obj_pattern (RT := ascii_runtime)).
Proof.
  unfold obj_pattern, Plus.
  repeat (apply agree_cat || apply agree_star || apply agree_refl
          || (apply agree_cls; intros c Hc; first [apply isdecimal_ascii; exact Hc | reflexivity])).
Qed.

Lemma clean_line_ascii cleaned_lines line :
  forallb is_ascii line = true ->
  clean_line (RT := RT) cleaned_lines line =
  clean_line (RT := ascii_runtime) cleaned_lines line.
Proof.
  intros H. apply forallb_strip in H. unfold clean_line.
  destruct (strip line) as [|c t]; [reflexivity|].
  rewrite (str_lower_ascii (c :: t) H).
  change (str_lower (PyRuntime := ascii_runtime) (c :: t))
    with (List.map ascii_lower (c :: t)).
  unfold re_match.
  assert (Forall (fun c => is_ascii c = true) (c :: t)) as Hall.
  { apply List.Forall_forall. now apply forallb_forall. }
  rewrite (agree_fullmatch _ _ Hall _ _ obj_pattern_agree).
  reflexivity.
Qed.

Lemma clean_lines_ascii lines : forall cleaned_lines,
  Forall (fun line => forallb is_ascii line = true) lines ->
  fold_left (clean_line (RT := RT)) lines cleaned_lines =
  fold_left (clean_line (RT := ascii_runtime)) lines cleaned_lines.
Proof.
  induction lines as [|line lines IH]; intros acc Hl; [reflexivity|].
  inversion Hl; subst. simpl. rewrite clean_line_ascii by assumption.
  now apply IH.
Qed.

(** On ASCII text the sanitizer needs no Unicode table. *)
Lemma sanitize_ascii raw :
  forallb is_ascii raw = true ->
  _clean_extracted_text (RT := RT) raw =
  _clean_extracted_text (RT := ascii_runtime) raw.
Proof.
  intros H. unfold _clean_extracted_text. cbv zeta.
  now rewrite (clean_lines_ascii _ _ (splitlines_forallb _ _ H)).
Qed.

Lemma sanitize_pdf_shell : _clean_extracted_text pdf_shell = py "Hello World".
Proof.
  rewrite sanitize_ascii by (vm_compute; reflexivity).
  vm_compute. reflexivity.
Qed.

End AsciiAgreement.

(** ** The extractor *)

Section Extractor.
Context `{RT : PyRuntime}.
Variable E : env.

(** C8: when the key has no plain-text extension, so that detection is
    consulted, and detection reports the format as unsupported, the
    extractor reads the raw object, decodes it as UTF-8 skipping what
    does not decode, and returns the sanitizer's output on it instead of
    failing; when the bytes decode to the PDF shell around Hello World,
    the text extracted is exactly Hello World. *)
Theorem unsupported_format_fallback bucket key st msg data :
  in_tuple (snd (splitext (str_lower key))) text_extensions = false ->
  textract_detect_document_text E (tick st) bucket key =
    Raise (UnsupportedDocumentException msg) ->
  s3_get_object E (S (tick st)) bucket key = Return data ->
  fst (extract_text E bucket key st) =
    Return (_clean_extracted_text (decode_utf8_ignore data)) /\
  trace (snd (extract_text E bucket key st)) =
    trace st ++ [DetectDocumentText bucket key; GetObject bucket key] /\
  (decode_utf8_ignore data = pdf_shell ->
   fst (extract_text E bucket key st) = Return (py "Hello World")).
Proof.
  intros Hext Hdet Hget.
  assert (extract_text E bucket key st =
          (Return (_clean_extracted_text (decode_utf8_ignore data)),
           interact (Some (GetObject bucket key))
             (interact (Some (DetectDocumentText bucket key)) st))) as Hrun.
  { unfold extract_text, try_except, extract_text_body. rewrite Hext.
    unfold bind at 1. unfold detect_document_text. rewrite Hdet.
    unfold bind, get_object. simpl. now rewrite Hget. }
  rewrite Hrun. simpl. split; [reflexivity|]. split.
  - now rewrite <- app_assoc.
  - intros ->. now rewrite sanitize_pdf_shell.
Qed.

End Extractor.

Lemma unsupported_format_fallback_witness :
  in_tuple (snd (splitext (str_lower (PyRuntime := ascii_runtime) (py "report.pdf"))))
    text_extensions = false /\
  textract_detect_document_text unsupported_env (tick initial_state)
    (py "uploads") (py "report.pdf") =
    Raise (UnsupportedDocumentException (py "Unsupported document format")) /\
  s3_get_object unsupported_env (S (tick initial_state))
    (py "uploads") (py "report.pdf") = Return (bytes_of pdf_shell) /\
  decode_utf8_ignore (PyRuntime := ascii_runtime) (bytes_of pdf_shell) = pdf_shell /\
  fst (extract_text (RT := ascii_runtime) unsupported_env
         (py "uploads") (py "report.pdf") initial_state) = Return (py "Hello World").
Proof.
  assert (in_tuple (snd (splitext (str_lower (PyRuntime := ascii_runtime)
                                     (py "report.pdf"))))
            text_extensions = false) as Hext by (vm_compute; reflexivity).
  assert (decode_utf8_ignore (PyRuntime := ascii_runtime) (bytes_of pdf_shell)
          = pdf_shell) as Hdec by (vm_compute; reflexivity).
  split; [exact Hext|]. split; [reflexivity|]. split; [reflexivity|].
  split; [exact Hdec|].
  exact (proj2 (proj2 (unsupported_format_fallback (RT := ascii_runtime)
           unsupported_env (py "uploads") (py "report.pdf") initial_state
           (py "Unsupported document format") (bytes_of pdf_shell)
           Hext eq_refl eq_refl)) Hdec).
Defined.

(** ** Relations every step of a computation respects *)

Section Respects.
Variable R : state -> state -> Prop.
Hypothesis R_refl : forall s, R s s.
Hypothesis R_trans : forall s1 s2 s3, R s1 s2 -> R s2 s3 -> R s1 s3.

Lemma respects_ret {A} (a : A) : respects R (ret a).
Proof using R_refl. intros s. apply R_refl. Qed.

Lemma respects_raise {A} (e : exn) : respects R (raise (A := A) e).
Proof using R_refl. intros s. apply R_refl. Qed.

Lemma respects_lift {A} (o : outcome A) : respects R (lift o).
Proof using R_refl. intros s. apply R_refl. Qed.

Lemma respects_bind {A B} (m : M A) (k : A -> M B) :
  respects R m -> (forall a, respects R (k a)) -> respects R (bind m k).
Proof using R_trans.
  intros Hm Hk s. unfold bind. specialize (Hm s).
  destruct (m s) as [[a|e] s']; simpl in *; [|exact Hm].
  exact (R_trans _ _ _ Hm (Hk a s')).
Qed.

Lemma respects_try_except {A} (m : M A) (h : exn -> M A) :
  respects R m -> (forall e, respects R (h e)) -> respects R (try_except m h).
Proof using R_trans.
  intros Hm Hh s. unfold try_except. specialize (Hm s).
  destruct (m s) as [[a|e] s']; simpl in *; [exact Hm|].
  exact (R_trans _ _ _ Hm (Hh e s')).
Qed.

End Respects.

Lemma items_put_app t1 t2 : items_put (t1 ++ t2) = items_put t1 ++ items_put t2.
Proof. unfold items_put. apply flat_map_app. Qed.

Lemma generations_app t1 t2 :
  generations (t1 ++ t2) = (generations t1 + generations t2)%nat.
Proof. unfold generations. now rewrite List.filter_app, length_app. Qed.

Lemma no_generation_refl s : no_generation s s.
Proof. reflexivity. Qed.

Lemma no_generation_trans s1 s2 s3 :
  no_generation s1 s2 -> no_generation s2 s3 -> no_generation s1 s3.
Proof. unfold no_generation. congruence. Qed.

(** One interaction that is no request to the generator. *)
Lemma no_generation_interact c s :
  match c with Some (InvokeModel _ _) => False | _ => True end ->
  no_generation s (interact c s).
Proof.
  unfold no_generation. destruct c as [c|]; [|reflexivity].
  intros H. cbn [interact trace]. rewrite generations_app.
  destruct c; try contradiction; cbn; lia.
Qed.

Section Orchestrator.
Context `{RT : PyRuntime}.
Variable E : env.

(** *** How the helpers run *)

Lemma store_metadata_run document_id key status ts additional st :
  store_metadata E document_id key status ts additional st =
  (Return tt,
   match dynamodb_put_item E (S (tick st))
           (metadata_item document_id key status ts additional (clock E (tick st))),
         item_key (metadata_item document_id key status ts additional (clock E (tick st)))
   with
   | None, Some k =>
       set_table
         (<[k := metadata_item document_id key status ts additional (clock E (tick st))]>
            (table st))
         (interact (Some (PutItem (metadata_item document_id key status ts additional
                                     (clock E (tick st)))))
            (interact None st))
   | _, _ =>
       interact (Some (PutItem (metadata_item document_id key status ts additional
                                  (clock E (tick st)))))
         (interact None st)
   end).
Proof.
  unfold store_metadata, try_except, bind, utcnow, put_item. simpl.
  destruct (dynamodb_put_item E _ _); [reflexivity|].
  now destruct (item_key _).
Qed.

(** A failed write to the table never leaves [store_metadata]. *)
Lemma store_metadata_returns document_id key status ts additional st :
  fst (store_metadata E document_id key status ts additional st) = Return tt.
Proof. now rewrite store_metadata_run. Qed.

Lemma store_metadata_trace document_id key status ts additional st :
  trace (snd (store_metadata E document_id key status ts additional st)) =
  trace st ++
  [PutItem (metadata_item document_id key status ts additional (clock E (tick st)))].
Proof.
  rewrite store_metadata_run. simpl.
  destruct (dynamodb_put_item E _ _); [reflexivity|].
  now destruct (item_key _).
Qed.

Lemma store_metadata_tick document_id key status ts additional st :
  tick (snd (store_metadata E document_id key status ts additional st)) =
  S (S (tick st)).
Proof.
  rewrite store_metadata_run. simpl.
  destruct (dynamodb_put_item E _ _); [reflexivity|].
  now destruct (item_key _).
Qed.

Lemma send_notification_run document_id key summary_key status error_message st :
  send_notification E document_id key summary_key status error_message st =
  (Return tt,
   interact
     (Some (Publish
        {| TopicArn := NOTIFICATION_TOPIC E;
           Subject := py "Document Processing " ++ status ++ py ": " ++ key;
           Message := notification_message document_id key summary_key status
                        error_message (clock E (tick st)) |}))
     (interact None st)).
Proof.
  unfold send_notification, try_except, bind, utcnow, publish. simpl.
  now destruct (sns_publish E _ _).
Qed.

Lemma send_notification_returns document_id key summary_key status error_message st :
  fst (send_notification E document_id key summary_key status error_message st) =
  Return tt.
Proof. now rewrite send_notification_run. Qed.

(** The failure path: the FAILED record, the notification, and the same
    exception again. *)
Lemma on_failure_run document_id key ts e st :
  on_failure E document_id key ts e st =
  (Raise e,
   snd (send_notification E (or_unknown document_id) (key_or_unknown key) None
          (py "FAILED") (Some (exn_str e))
          (snd (store_metadata E (or_unknown document_id) (key_or_unknown key)
                  (py "FAILED") ts (Some (failed_data e)) st)))).
Proof.
  unfold on_failure, bind, try_except.
  pose proof (store_metadata_returns (or_unknown document_id) (key_or_unknown key)
                (py "FAILED") ts (Some (failed_data e)) st) as H1.
  destruct (store_metadata E _ _ _ _ _ st) as [o1 s1]. simpl in H1. subst o1.
  cbn [snd].
  pose proof (send_notification_returns (or_unknown document_id) (key_or_unknown key)
                None (py "FAILED") (Some (exn_str e)) s1) as H2.
  destruct (send_notification E _ _ _ _ _ s1) as [o2 s2]. simpl in H2. subst o2.
  reflexivity.
Qed.

(** The boundary of the handler. *)
Lemma handler_boundary r rest st e st2 :
  process_document E (bucket_name r) (attempt_key r) (attempt_id E st)
    (attempt_start E st) (interact None (interact None st)) = (Raise e, st2) ->
  lambda_handler E (r :: rest) st =
  on_failure E (Some (attempt_id E st)) (Some (attempt_key r)) (attempt_start E st) e st2.
Proof.
  intros H. unfold lambda_handler, bind, utcnow, uuid4, try_except. simpl.
  unfold attempt_key, attempt_id, attempt_start in H. now rewrite H.
Qed.

Lemma handler_success r rest st resp st2 :
  process_document E (bucket_name r) (attempt_key r) (attempt_id E st)
    (attempt_start E st) (interact None (interact None st)) = (Return resp, st2) ->
  lambda_handler E (r :: rest) st = (Return resp, st2).
Proof.
  intros H. unfold lambda_handler, bind, utcnow, uuid4, try_except. simpl.
  unfold attempt_key, attempt_id, attempt_start in H. now rewrite H.
Qed.

End Orchestrator.

(** ** Items and their keys *)

Lemma metadata_item_lookup document_id key status ts additional now (a : string) :
  (forall d, additional = Some d -> d !! a = None) ->
  metadata_item document_id key status ts additional now !! a =
  metadata_item document_id key status ts None now !! a.
Proof.
  intros H. unfold metadata_item. destruct additional as [d|]; [|reflexivity].
  case_bool_decide; [reflexivity|].
  apply lookup_union_r. now apply H.
Qed.

(** The additional data of the source name no key attribute, so an item
    carries the document_id and the timestamp it was built from. *)
Lemma metadata_item_key document_id key status ts additional now :
  (forall d, additional = Some d ->
     d !! "document_id"%string = None /\ d !! "processing_timestamp"%string = None) ->
  item_key (metadata_item document_id key status ts additional now) =
  Some (document_id, ts).
Proof.
  intros H. unfold item_key.
  rewrite (metadata_item_lookup _ _ _ _ additional _ "document_id")
    by (intros d Hd; now apply H).
  rewrite (metadata_item_lookup _ _ _ _ additional _ "processing_timestamp")
    by (intros d Hd; now apply H).
  reflexivity.
Qed.

Lemma failed_data_no_key e d :
  Some (failed_data e) = Some d ->
  d !! "document_id"%string = None /\ d !! "processing_timestamp"%string = None.
Proof. intros H. injection H as <-. split; reflexivity. Qed.

Lemma completed_data_no_key summary_key n m duration d :
  Some (completed_data summary_key n m duration) = Some d ->
  d !! "document_id"%string = None /\ d !! "processing_timestamp"%string = None.
Proof. intros H. injection H as <-. split; reflexivity. Qed.

Lemma failed_item_status document_id key ts e now :
  status_of (metadata_item document_id key (py "FAILED") ts (Some (failed_data e)) now)
  = Some (AStr (py "FAILED")).
Proof.
  unfold status_of. rewrite metadata_item_lookup; [reflexivity|].
  intros d H. now injection H as <-.
Qed.

Lemma failed_item_error_message document_id key ts e now :
  metadata_item document_id key (py "FAILED") ts (Some (failed_data e)) now
    !! "error_message"%string = Some (AStr (exn_str e)).
Proof.
  unfold metadata_item. case_bool_decide as Hd.
  - apply (f_equal (fun m : gmap string attr => m !! "error_message"%string)) in Hd.
    unfold failed_data in Hd. rewrite lookup_singleton_eq in Hd. discriminate Hd.
  - apply lookup_union_Some_l. unfold failed_data. apply lookup_singleton_eq.
Qed.

(** ** Steps that send nothing to the generator *)

Section Quiet.
Context `{RT : PyRuntime}.
Variable E : env.

Lemma respects_bind_ng {A B} (m : M A) (k : A -> M B) :
  respects no_generation m -> (forall a, respects no_generation (k a)) ->
  respects no_generation (bind m k).
Proof. apply respects_bind. exact no_generation_trans. Qed.

Lemma get_object_no_generation bucket key :
  respects no_generation (get_object E bucket key).
Proof. intros s. now apply no_generation_interact. Qed.

Lemma extract_text_no_generation bucket key :
  respects no_generation (extract_text E bucket key).
Proof.
  unfold extract_text.
  apply respects_try_except; [exact no_generation_trans | |].
  - unfold extract_text_body.
    destruct (in_tuple _ _).
    + apply respects_bind_ng; [apply get_object_no_generation|].
      intros data. destruct (decode_utf8 data); apply respects_ret;
        exact no_generation_refl.
    + apply respects_bind_ng.
      * intros s. now apply no_generation_interact.
      * intros blocks. apply respects_bind_ng.
        -- apply respects_lift. exact no_generation_refl.
        -- intros t. apply respects_ret. exact no_generation_refl.
  - intros e. destruct e; try (apply respects_raise; exact no_generation_refl).
    apply respects_bind_ng; [apply get_object_no_generation|].
    intros data. apply respects_ret. exact no_generation_refl.
Qed.

Lemma store_metadata_no_generation document_id key status ts additional :
  respects no_generation (store_metadata E document_id key status ts additional).
Proof.
  intros s. unfold no_generation. rewrite store_metadata_trace, generations_app.
  rewrite Nat.add_comm. reflexivity.
Qed.

(** C5: when the text extracted is empty or all whitespace, the handler
    raises the no-text error, sends the table a FAILED record that
    carries the message of that error (and the table holds it once the
    write is accepted), notifies, and makes no request to the generation
    service: the summarizer is never invoked. *)
Theorem blank_extraction_fails r rest st text st2 :
  extract_text E (bucket_name r) (attempt_key r) (after_processing_record E r st)
    = (Return text, st2) ->
  blank text ->
  fst (lambda_handler E (r :: rest) st) = Raise (ValueError no_text_message) /\
  trace (snd (lambda_handler E (r :: rest) st)) =
    trace st2 ++
    [PutItem (failed_item E r st (ValueError no_text_message) (clock E (tick st2)));
     Publish (failed_notification E r st (ValueError no_text_message)
                (clock E (S (S (tick st2)))))] /\
  status_of (failed_item E r st (ValueError no_text_message) (clock E (tick st2)))
    = Some (AStr (py "FAILED")) /\
  failed_item E r st (ValueError no_text_message) (clock E (tick st2))
    !! "error_message"%string = Some (AStr no_text_message) /\
  (dynamodb_put_item E (S (tick st2))
     (failed_item E r st (ValueError no_text_message) (clock E (tick st2))) = None ->
   table (snd (lambda_handler E (r :: rest) st))
     !! (or_unknown (Some (attempt_id E st)), attempt_start E st)
   = Some (failed_item E r st (ValueError no_text_message) (clock E (tick st2)))) /\
  generations (trace (snd (lambda_handler E (r :: rest) st))) = generations (trace st).
Proof.
  intros Hext Hblank.
  assert (process_document E (bucket_name r) (attempt_key r) (attempt_id E st)
            (attempt_start E st) (interact None (interact None st))
          = (Raise (ValueError no_text_message), st2)) as Hrun.
  { unfold process_document, bind.
    pose proof (store_metadata_returns E (attempt_id E st) (attempt_key r)
                  (py "PROCESSING") (attempt_start E st) None
                  (interact None (interact None st))) as H1.
    unfold after_processing_record in Hext.
    destruct (store_metadata E _ _ _ _ _ _) as [o1 s1]. simpl in H1, Hext. subst o1.
    rewrite Hext. apply strip_nil in Hblank. now rewrite Hblank. }
  rewrite (handler_boundary E r rest st _ st2 Hrun), on_failure_run.
  cbn [fst snd key_or_unknown]. fold (failed_item E r st (ValueError no_text_message)).
  rewrite send_notification_run. cbn [snd].
  assert (trace (interact
            (Some (Publish
               {| TopicArn := NOTIFICATION_TOPIC E;
                  Subject := py "Document Processing " ++ py "FAILED" ++ py ": " ++ attempt_key r;
                  Message := notification_message (or_unknown (Some (attempt_id E st)))
                    (attempt_key r) None (py "FAILED")
                    (Some (exn_str (ValueError no_text_message)))
                    (clock E (tick (snd (store_metadata E (or_unknown (Some (attempt_id E st)))
                       (attempt_key r) (py "FAILED") (attempt_start E st)
                       (Some (failed_data (ValueError no_text_message))) st2)))) |}))
            (interact None (snd (store_metadata E (or_unknown (Some (attempt_id E st)))
                       (attempt_key r) (py "FAILED") (attempt_start E st)
                       (Some (failed_data (ValueError no_text_message))) st2))))
          = trace st2 ++
            [PutItem (failed_item E r st (ValueError no_text_message) (clock E (tick st2)));
             Publish (failed_notification E r st (ValueError no_text_message)
                        (clock E (S (S (tick st2)))))]) as Htrace.
  { cbn [trace interact]. rewrite store_metadata_trace, store_metadata_tick.
    rewrite <- app_assoc. reflexivity. }
  split; [reflexivity|]. split; [exact Htrace|].
  split; [apply failed_item_status|].
  split; [apply failed_item_error_message|].
  split.
  - intros Hput. cbn [table interact]. rewrite store_metadata_run.
    unfold failed_item in Hput. rewrite Hput.
    rewrite (metadata_item_key _ _ _ _ _ _ (failed_data_no_key _)).
    cbn [snd table set_table]. apply lookup_insert_eq.
  - rewrite Htrace, generations_app, Nat.add_comm.
    change (generations (trace st2) = generations (trace st)).
    transitivity (generations (trace (after_processing_record E r st))).
    + pose proof (extract_text_no_generation (bucket_name r) (attempt_key r)
                    (after_processing_record E r st)) as H.
      rewrite Hext in H. exact H.
    + unfold after_processing_record.
      rewrite (store_metadata_no_generation _ _ _ _ _ _). reflexivity.
Qed.

End Quiet.

Lemma blank_extraction_fails_witness :
  blank blank_text /\
  fst (lambda_handler (RT := ascii_runtime) blank_env [upload] initial_state)
    = Raise (ValueError no_text_message) /\
  generations (trace (snd (lambda_handler (RT := ascii_runtime) blank_env [upload]
                             initial_state))) = 0%nat.
Proof.
  assert (blank blank_text) as Hblank by (vm_compute; reflexivity).
  assert (extract_text (RT := ascii_runtime) blank_env (bucket_name upload)
            (attempt_key (RT := ascii_runtime) upload)
            (after_processing_record (RT := ascii_runtime) blank_env upload initial_state)
          = (Return blank_text,
             snd (extract_text (RT := ascii_runtime) blank_env (bucket_name upload)
                    (attempt_key (RT := ascii_runtime) upload)
                    (after_processing_record (RT := ascii_runtime) blank_env upload
                       initial_state)))) as Hext
    by (vm_compute; reflexivity).
  pose proof (blank_extraction_fails (RT := ascii_runtime) blank_env upload []
                initial_state blank_text _ Hext Hblank) as [H1 [_ [_ [_ [_ H2]]]]].
  split; [exact Hblank|]. split; [exact H1 | exact H2].
Defined.

(** ** One attempt, one key *)

Lemma writes_only_refl k s : writes_only k s s.
Proof.
  split; [reflexivity|]. exists []. split; [now rewrite app_nil_r|].
  intros item [].
Qed.

Lemma writes_only_trans k s1 s2 s3 :
  writes_only k s1 s2 -> writes_only k s2 s3 -> writes_only k s1 s3.
Proof.
  intros [Ht1 [c1 [Hc1 Hk1]]] [Ht2 [c2 [Hc2 Hk2]]]. split.
  - intros k' Hk'. now rewrite Ht2, Ht1.
  - exists (c1 ++ c2). split; [now rewrite Hc2, Hc1, app_assoc|].
    intros item Hin. rewrite items_put_app in Hin.
    apply in_app_or in Hin as [Hin | Hin]; auto.
Qed.

(** An interaction that puts no item, or an item of key [k]. *)
Lemma writes_only_interact k c s :
  (forall item, c = Some (PutItem item) -> item_key item = Some k) ->
  writes_only k s (interact c s).
Proof.
  intros H. split; [reflexivity|]. destruct c as [c|]; simpl.
  - exists [c]. split; [reflexivity|]. intros item Hin.
    destruct c; simpl in Hin; try contradiction.
    destruct Hin as [<- | []]. now apply H.
  - exists []. split; [now rewrite app_nil_r | intros item []].
Qed.

Section OneKey.
Context `{RT : PyRuntime}.
Variable E : env.
Variable k : pystr * Z.

Local Hint Resolve writes_only_refl writes_only_trans : core.

Lemma confined_ret {A} (a : A) : confined k (ret a).
Proof. apply respects_ret. auto. Qed.

Lemma confined_raise {A} e : confined k (raise (A := A) e).
Proof. apply respects_raise. auto. Qed.

Lemma confined_bind {A B} (m : M A) (f : A -> M B) :
  confined k m -> (forall a, confined k (f a)) -> confined k (bind m f).
Proof. apply respects_bind. eauto. Qed.

Lemma confined_try_except {A} (m : M A) (h : exn -> M A) :
  confined k m -> (forall e, confined k (h e)) -> confined k (try_except m h).
Proof. apply respects_try_except. eauto. Qed.

Lemma confined_utcnow : confined k (utcnow E).
Proof. intros s. apply writes_only_interact. discriminate. Qed.

Lemma confined_uuid4 : confined k (uuid4 E).
Proof. intros s. apply writes_only_interact. discriminate. Qed.

Lemma confined_get_object bucket key : confined k (get_object E bucket key).
Proof. intros s. apply writes_only_interact. discriminate. Qed.

Lemma confined_detect_document_text bucket key :
  confined k (detect_document_text E bucket key).
Proof. intros s. apply writes_only_interact. discriminate. Qed.

Lemma confined_invoke_model modelId request :
  confined k (invoke_model E modelId request).
Proof. intros s. apply writes_only_interact. discriminate. Qed.

Lemma confined_put_object req : confined k (put_object E req).
Proof.
  intros s. unfold put_object.
  destruct (s3_put_object E (tick s) req); simpl;
    apply (writes_only_interact k (Some (PutObject req)) s); discriminate.
Qed.

Lemma confined_publish req : confined k (publish E req).
Proof.
  intros s. unfold publish.
  destruct (sns_publish E (tick s) req); simpl;
    apply (writes_only_interact k (Some (Publish req)) s); discriminate.
Qed.

(** An accepted item replaces what the table held under its key. *)
Lemma confined_put_item item :
  item_key item = Some k -> confined k (put_item E item).
Proof.
  intros Hk s. unfold put_item. rewrite Hk.
  assert (writes_only k s (interact (Some (PutItem item)) s)) as Hi.
  { apply writes_only_interact. intros i H. now injection H as <-. }
  destruct (dynamodb_put_item E (tick s) item); simpl; [exact Hi|].
  destruct Hi as [_ Hcalls]. split; [|exact Hcalls].
  intros k' Hk'. simpl. now apply lookup_insert_ne.
Qed.

Lemma confined_store_metadata document_id key status ts additional :
  k = (document_id, ts) ->
  (forall d, additional = Some d ->
     d !! "document_id"%string = None /\ d !! "processing_timestamp"%string = None) ->
  confined k (store_metadata E document_id key status ts additional).
Proof.
  intros Hk Hadd. unfold store_metadata.
  apply confined_try_except; [|intros e; apply confined_ret].
  apply confined_bind; [apply confined_utcnow|].
  intros now. apply confined_put_item. rewrite Hk. now apply metadata_item_key.
Qed.

Lemma confined_send_notification document_id key summary_key status error_message :
  confined k (send_notification E document_id key summary_key status error_message).
Proof.
  unfold send_notification.
  apply confined_try_except; [|intros e; apply confined_ret].
  apply confined_bind; [apply confined_utcnow|].
  intros now. apply confined_publish.
Qed.

Lemma confined_extract_text bucket key : confined k (extract_text E bucket key).
Proof.
  unfold extract_text. apply confined_try_except.
  - unfold extract_text_body. destruct (in_tuple _ _).
    + apply confined_bind; [apply confined_get_object|].
      intros data. destruct (decode_utf8 data); apply confined_ret.
    + apply confined_bind; [apply confined_detect_document_text|].
      intros blocks. apply confined_bind.
      * intros s. apply writes_only_refl.
      * intros t. apply confined_ret.
  - intros e. destruct e; try apply confined_raise.
    apply confined_bind; [apply confined_get_object|].
    intros data. apply confined_ret.
Qed.

Lemma confined_generate_summary text : confined k (generate_summary E text).
Proof.
  unfold generate_summary. apply confined_bind; [apply confined_invoke_model|].
  intros [|answer rest]; [apply confined_raise|].
  destruct (has_bad_phrase _); apply confined_ret.
Qed.

Lemma confined_store_summary key summary text :
  confined k (store_summary E key summary text).
Proof.
  unfold store_summary. apply confined_bind; [apply confined_utcnow|].
  intros now. apply confined_bind; [apply confined_put_object|].
  intros _. apply confined_ret.
Qed.

Lemma confined_on_failure document_id key ts e :
  k = (or_unknown document_id, ts) ->
  confined k (on_failure E document_id key ts e).
Proof.
  intros Hk. unfold on_failure. apply confined_bind; [|intros _; apply confined_raise].
  apply confined_try_except; [|intros e'; apply confined_ret].
  apply confined_bind.
  - apply confined_store_metadata; [exact Hk | apply failed_data_no_key].
  - intros _. apply confined_send_notification.
Qed.

Lemma confined_process_document bucket key document_id ts :
  k = (document_id, ts) ->
  confined k (process_document E bucket key document_id ts).
Proof.
  intros Hk. unfold process_document.
  apply confined_bind; [now apply confined_store_metadata|]. intros _.
  apply confined_bind; [apply confined_extract_text|]. intros text.
  destruct (strip text); [apply confined_raise|].
  apply confined_bind; [apply confined_generate_summary|]. intros summary.
  apply confined_bind; [apply confined_store_summary|]. intros summary_key.
  apply confined_bind; [apply confined_utcnow|]. intros now.
  apply confined_bind.
  { apply confined_store_metadata; [exact Hk | apply completed_data_no_key]. }
  intros _. apply confined_bind; [apply confined_send_notification|].
  intros _. apply confined_ret.
Qed.

End OneKey.

Section Attempts.
Context `{RT : PyRuntime}.
Variable E : env.

(** C1 as the code has it: every record an attempt writes, PROCESSING
    and then COMPLETED or FAILED, carries the same document_id and the
    same processing_timestamp, the time the attempt started; the table,
    keyed by that pair, changes at no other key, so that an accepted
    write replaces the record of the attempt written before it. *)
Theorem attempt_writes_one_key (event : list s3_record) (st : state) :
  attempt_id E st <> [] ->
  writes_only
    (match event with [] => UNKNOWN | _ :: _ => attempt_id E st end,
     attempt_start E st)
    st (snd (lambda_handler E event st)).
Proof.
  intros Hid. unfold lambda_handler, bind at 1. unfold utcnow at 1.
  fold (attempt_start E st). destruct event as [|r rest].
  - apply (writes_only_trans _ _ (interact None st)).
    + apply writes_only_interact. discriminate.
    + now apply confined_on_failure.
  - apply (writes_only_trans _ _ (interact None st)).
    { apply writes_only_interact. discriminate. }
    unfold bind, uuid4. cbn [tick interact]. fold (attempt_id E st).
    apply (writes_only_trans _ _ (interact None (interact None st))).
    { apply writes_only_interact. discriminate. }
    apply confined_try_except.
    + now apply confined_process_document.
    + intros e. apply confined_on_failure. unfold or_unknown. simpl.
      destruct (attempt_id E st); [contradiction | reflexivity].
Qed.

End Attempts.

Lemma attempt_writes_one_key_witness :
  attempt_id healthy_env initial_state <> [] /\
  writes_only healthy_key initial_state (snd healthy_run).
Proof.
  assert (attempt_id healthy_env initial_state <> []) as Hid by discriminate.
  split; [exact Hid|].
  exact (attempt_writes_one_key (RT := ascii_runtime) healthy_env [upload]
           initial_state Hid).
Defined.

(** C1 as stated fails: in a run where every write is accepted, the
    PROCESSING record and the COMPLETED record carry the same document_id
    and the same timestamp, and the table holds one record, the COMPLETED
    one: the PROCESSING record is gone. *)
Lemma terminal_record_replaces_processing_record :
  List.map status_of (items_put (trace (snd healthy_run))) =
    [Some (AStr (py "PROCESSING")); Some (AStr (py "COMPLETED"))] /\
  List.map item_key (items_put (trace (snd healthy_run))) =
    [Some healthy_key; Some healthy_key] /\
  size (table (snd healthy_run)) = 1%nat /\
  status_of <$> (table (snd healthy_run) !! healthy_key) =
    Some (Some (AStr (py "COMPLETED"))).
Proof. repeat split; vm_compute; reflexivity. Qed.

(** ** Failed writes *)

Section Persistence.
Context `{RT : PyRuntime}.
Variable E : env.

Lemma on_failure_trace document_id key ts e st :
  trace (snd (on_failure E document_id key ts e st)) =
  trace st ++
  [PutItem (metadata_item (or_unknown document_id) (key_or_unknown key) (py "FAILED")
              ts (Some (failed_data e)) (clock E (tick st)));
   Publish
     {| TopicArn := NOTIFICATION_TOPIC E;
        Subject := py "Document Processing " ++ py "FAILED" ++ py ": " ++ key_or_unknown key;
        Message := notification_message (or_unknown document_id) (key_or_unknown key)
                     None (py "FAILED") (Some (exn_str e))
                     (clock E (S (S (tick st)))) |}].
Proof.
  rewrite on_failure_run. cbn [snd]. rewrite send_notification_run. cbn [snd].
  cbn [trace interact]. rewrite store_metadata_trace, store_metadata_tick.
  now rewrite <- app_assoc.
Qed.

(** [store_summary] raises what [put_object] raises. *)
Lemma store_summary_fails key summary text st e :
  s3_put_object E (S (tick st))
    {| Bucket := OUTPUT_BUCKET E;
       Key := summary_key_of key;
       Body := summary;
       ContentType := py "text/plain";
       Metadata := list_to_map
         [("original-document"%string, AStr key);
          ("summary-generated"%string, AStr (py "true"));
          ("text-length"%string, AStr (str_of_nat (length text)));
          ("summary-length"%string, AStr (str_of_nat (length summary)));
          ("processing-timestamp"%string, AInstant (clock E (tick st)))] |} = Some e ->
  store_summary E key summary text st =
  (Raise e,
   interact (Some (PutObject
     {| Bucket := OUTPUT_BUCKET E;
        Key := summary_key_of key;
        Body := summary;
        ContentType := py "text/plain";
        Metadata := list_to_map
          [("original-document"%string, AStr key);
           ("summary-generated"%string, AStr (py "true"));
           ("text-length"%string, AStr (str_of_nat (length text)));
           ("summary-length"%string, AStr (str_of_nat (length summary)));
           ("processing-timestamp"%string, AInstant (clock E (tick st)))] |}))
     (interact None st)).
Proof.
  intros H. unfold store_summary, bind, utcnow, put_object. cbn [tick interact].
  now rewrite H.
Qed.

(** C4 as the code has it.  A write the table rejects never leaves
    [store_metadata]: the error is logged there and the call returns, the
    table unchanged, so that no FAILED record and no notification answer
    it and nothing is raised again.  A write of the summary artifact that
    the bucket rejects is caught at the boundary of the handler, answered
    with the write of a FAILED record carrying its message and with a
    failure notification, and raised again unchanged. *)
Theorem persistence_failures :
  (forall document_id key status ts additional st e,
     dynamodb_put_item E (S (tick st))
       (metadata_item document_id key status ts additional (clock E (tick st)))
       = Some e ->
     store_metadata E document_id key status ts additional st =
     (Return tt,
      interact (Some (PutItem (metadata_item document_id key status ts additional
                                 (clock E (tick st)))))
        (interact None st))) /\
  (forall r rest st text st2 summary st3 e,
     extract_text E (bucket_name r) (attempt_key r) (after_processing_record E r st)
       = (Return text, st2) ->
     ~ blank text ->
     generate_summary E text st2 = (Return summary, st3) ->
     s3_put_object E (S (tick st3))
       (artifact_request E r summary text (clock E (tick st3))) = Some e ->
     fst (lambda_handler E (r :: rest) st) = Raise e /\
     trace (snd (lambda_handler E (r :: rest) st)) =
       trace st3 ++
       [PutObject (artifact_request E r summary text (clock E (tick st3)));
        PutItem (failed_item E r st e (clock E (S (S (tick st3)))));
        Publish (failed_notification E r st e (clock E (S (S (S (S (tick st3)))))))] /\
     status_of (failed_item E r st e (clock E (S (S (tick st3)))))
       = Some (AStr (py "FAILED")) /\
     failed_item E r st e (clock E (S (S (tick st3)))) !! "error_message"%string
       = Some (AStr (exn_str e))).
Proof.
  split.
  - intros document_id key status ts additional st e Hput.
    rewrite store_metadata_run. now rewrite Hput.
  - intros r rest st text st2 summary st3 e Hext Hnb Hgen Hput.
    assert (process_document E (bucket_name r) (attempt_key r) (attempt_id E st)
              (attempt_start E st) (interact None (interact None st))
            = (Raise e,
               interact (Some (PutObject
                  (artifact_request E r summary text (clock E (tick st3)))))
                 (interact None st3))) as Hrun.
    { unfold process_document, bind.
      pose proof (store_metadata_returns E (attempt_id E st) (attempt_key r)
                    (py "PROCESSING") (attempt_start E st) None
                    (interact None (interact None st))) as H1.
      unfold after_processing_record in Hext.
      destruct (store_metadata E _ _ _ _ _ _) as [o1 s1]. simpl in H1, Hext. subst o1.
      rewrite Hext.
      destruct (strip text) as [|c t] eqn:Hs.
      { exfalso. apply Hnb. now apply strip_nil. }
      rewrite Hgen. unfold artifact_request in Hput.
      now rewrite (store_summary_fails _ _ _ _ _ Hput). }
    rewrite (handler_boundary E r rest st _ _ Hrun).
    split; [now rewrite on_failure_run|].
    split; [|split; [apply failed_item_status | apply failed_item_error_message]].
    rewrite on_failure_trace. cbn [trace tick interact key_or_unknown].
    now rewrite <- app_assoc.
Qed.

End Persistence.

Lemma persistence_failures_witness :
  (dynamodb_put_item table_down_env (S (tick initial_state))
     (metadata_item (py "id") (py "notes.txt") (py "PROCESSING") 0 None
        (clock table_down_env (tick initial_state)))
     = Some (ClientError (py "ProvisionedThroughputExceededException")) /\
   fst (store_metadata table_down_env (py "id") (py "notes.txt") (py "PROCESSING")
          0 None initial_state) = Return tt /\
   table (snd (store_metadata table_down_env (py "id") (py "notes.txt")
                 (py "PROCESSING") 0 None initial_state)) = table initial_state) /\
  (~ blank notes /\
   (forall n request, s3_put_object bucket_down_env n request
      = Some (ClientError (py "AccessDenied"))) /\
   fst bucket_down_run = Raise (ClientError (py "AccessDenied")) /\
   List.map status_of (items_put (trace (snd bucket_down_run))) =
     [Some (AStr (py "PROCESSING")); Some (AStr (py "FAILED"))]).
Proof.
  split.
  - pose proof (proj1 (persistence_failures (RT := ascii_runtime) table_down_env)
                  (py "id") (py "notes.txt") (py "PROCESSING") 0%Z None initial_state
                  (ClientError (py "ProvisionedThroughputExceededException")) eq_refl)
      as H.
    split; [reflexivity|]. now rewrite H.
  - assert (~ blank notes) as Hnb by (vm_compute; discriminate).
    assert (extract_text (RT := ascii_runtime) bucket_down_env (bucket_name upload)
              (attempt_key (RT := ascii_runtime) upload)
              (after_processing_record (RT := ascii_runtime) bucket_down_env upload
                 initial_state)
            = (Return notes,
               snd (extract_text (RT := ascii_runtime) bucket_down_env
                      (bucket_name upload) (attempt_key (RT := ascii_runtime) upload)
                      (after_processing_record (RT := ascii_runtime) bucket_down_env
                         upload initial_state)))) as Hext
      by (vm_compute; reflexivity).
    assert (generate_summary (RT := ascii_runtime) bucket_down_env notes
              (snd (extract_text (RT := ascii_runtime) bucket_down_env
                      (bucket_name upload) (attempt_key (RT := ascii_runtime) upload)
                      (after_processing_record (RT := ascii_runtime) bucket_down_env
                         upload initial_state)))
            = (Return sample_summary,
               snd (generate_summary (RT := ascii_runtime) bucket_down_env notes
                 (snd (extract_text (RT := ascii_runtime) bucket_down_env
                      (bucket_name upload) (attempt_key (RT := ascii_runtime) upload)
                      (after_processing_record (RT := ascii_runtime) bucket_down_env
                         upload initial_state)))))) as Hgen
      by (vm_compute; reflexivity).
    pose proof (proj2 (persistence_failures (RT := ascii_runtime) bucket_down_env)
                  upload [] initial_state notes _ sample_summary _
                  (ClientError (py "AccessDenied")) Hext Hnb Hgen eq_refl)
      as [H1 _].
    split; [exact Hnb|]. split; [reflexivity|]. split; [exact H1|].
    vm_compute. reflexivity.
Defined.

(** C4 as stated fails: the table rejects every write, and the handler
    raises nothing: it returns its success answer, no FAILED record was
    sent, and the table is empty. *)
Lemma rejected_record_write_goes_unanswered :
  (forall n item, dynamodb_put_item table_down_env n item =
     Some (ClientError (py "ProvisionedThroughputExceededException"))) /\
  (statusCode <$> (match fst table_down_run with
                   | Return resp => Some resp
                   | Raise _ => None
                   end)) = Some 200%Z /\
  List.map status_of (items_put (trace (snd table_down_run))) =
    [Some (AStr (py "PROCESSING")); Some (AStr (py "COMPLETED"))] /\
  table (snd table_down_run) = ∅.
Proof.
  split; [reflexivity|]. repeat split; vm_compute; reflexivity.
Qed.

(** ** Two scenarios of the specification *)

(** A plain-text upload is returned as stored and reaches the prompt as
    it is. *)
Example notes_are_extracted_verbatim :
  fst (extract_text (RT := ascii_runtime) healthy_env (py "uploads") (py "notes.txt")
         initial_state) = Return notes /\
  document_content (RT := ascii_runtime) notes = notes.
Proof. split; vm_compute; reflexivity. Qed.

Example summary_key_of_invoice :
  summary_key_of (py "invoice/jan.pdf") = py "summaries/invoice/jan.pdf.summary.txt".
Proof. reflexivity. Qed.

(** ** The sanitizer never lengthens a text *)

Lemma length_lstrip s : (length (lstrip s) <= length s)%nat.
Proof.
  destruct (lstrip_spec s) as [pre [H _]]. rewrite H at 2.
  rewrite length_app. lia.
Qed.

Lemma length_strip s : (length (strip s) <= length s)%nat.
Proof.
  unfold strip. destruct (rstrip_spec (lstrip s)) as [suf [H _]].
  pose proof (length_lstrip s) as Hl. rewrite H in Hl.
  rewrite length_app in Hl. lia.
Qed.

Lemma weight_app l1 l2 : weight (l1 ++ l2) = (weight l1 + weight l2)%nat.
Proof. induction l1 as [|x l1 IH]; simpl; [reflexivity | rewrite IH; lia]. Qed.

(** Joined with newlines, lines take one character less than their
    weight. *)
Lemma length_join_weight lines :
  (length (join [LF] lines) <= pred (weight lines))%nat.
Proof.
  induction lines as [|p rest IH]; [simpl; lia|].
  destruct rest as [|q rest].
  - simpl. lia.
  - change (join [LF] (p :: q :: rest)) with (p ++ [LF] ++ join [LF] (q :: rest)).
    rewrite !length_app. change (length [LF]) with 1%nat.
    change (weight (p :: q :: rest)) with (length p + 1 + weight (q :: rest))%nat.
    change (weight (q :: rest)) with (length q + 1 + weight rest)%nat in *.
    lia.
Qed.

Lemma weight_cons x l : weight (x :: l) = (length x + 1 + weight l)%nat.
Proof. reflexivity. Qed.

Lemma weight_splitlines_from n : forall s cur,
  (length s <= n)%nat ->
  (weight (splitlines_from cur s) <= length cur + length s + 1)%nat.
Proof.
  induction n as [|n IH]; intros s cur Hn.
  - destruct s; [|cbn [length] in Hn; lia]. cbn [splitlines_from].
    destruct cur; [cbn; lia|].
    rewrite weight_cons, length_rev. cbn. lia.
  - destruct s as [|c s]; cbn [splitlines_from].
    + destruct cur; [cbn; lia|].
      rewrite weight_cons, length_rev. cbn. lia.
    + cbn [length] in Hn. destruct (N.eqb c 13).
      * destruct s as [|c' s'].
        -- rewrite weight_cons, length_rev. cbn. lia.
        -- cbn [length] in Hn. destruct (N.eqb c' 10);
             rewrite weight_cons, length_rev.
           ++ pose proof (IH s' [] ltac:(lia)) as H. cbn [length] in *. lia.
           ++ pose proof (IH (c' :: s') [] ltac:(cbn [length]; lia)) as H.
              cbn [length] in *. lia.
      * destruct (is_linebreak c).
        -- rewrite weight_cons, length_rev.
           pose proof (IH s [] ltac:(lia)) as H. cbn [length] in *. lia.
        -- pose proof (IH s (c :: cur) ltac:(lia)) as H. cbn [length] in *. lia.
Qed.

Lemma weight_splitlines s : (weight (splitlines s) <= length s + 1)%nat.
Proof. apply (weight_splitlines_from (length s) s []). lia. Qed.

Section NoGrowth.
Context `{RT : PyRuntime}.

(** One pass of the loop adds at most the weight of its line. *)
Lemma weight_clean_line cleaned_lines line :
  (weight (clean_line cleaned_lines line) <=
   weight cleaned_lines + (length line + 1))%nat.
Proof.
  unfold clean_line. pose proof (length_strip line) as Hs.
  destruct (strip line) as [|c t] eqn:Heq.
  - rewrite weight_app, weight_cons. cbn. lia.
  - repeat match goal with |- context [if ?b then _ else _] => destruct b end;
      try lia.
    rewrite weight_app, weight_cons. cbn [length] in *. cbn [weight fold_right]. lia.
Qed.

Lemma weight_clean_lines lines : forall cleaned_lines,
  (weight (fold_left clean_line lines cleaned_lines) <=
   weight cleaned_lines + weight lines)%nat.
Proof.
  induction lines as [|line lines IH]; intros acc; cbn [fold_left].
  - cbn. lia.
  - specialize (IH (clean_line acc line)).
    pose proof (weight_clean_line acc line). rewrite weight_cons. lia.
Qed.

Lemma length_sanitize (raw : pystr) :
  (length (_clean_extracted_text raw) <= length raw)%nat.
Proof.
  unfold _clean_extracted_text. cbv zeta.
  etransitivity; [apply List.filter_length_le|].
  etransitivity; [apply length_join_weight|].
  pose proof (weight_clean_lines (splitlines raw) []) as H1.
  pose proof (weight_splitlines raw) as H2.
  change (weight []) with 0%nat in H1. lia.
Qed.

(** X1: the output of the sanitizer is never longer than its input:
    lines are only trimmed or dropped, a line boundary of one or two
    characters becomes one newline, and characters are only filtered
    out. *)
Theorem sanitize_never_lengthens (raw : pystr) :
  (length (_clean_extracted_text raw) <= length raw)%nat.
Proof. apply length_sanitize. Qed.

(** X2: whatever the length of the text, the document content placed in
    the prompt has at most 10,003 characters; a text of at most 10,000
    characters is cleaned whole, without the marker. *)
Theorem document_content_is_bounded (text : pystr) :
  (length (document_content text) <= max_length + length truncation_marker)%nat /\
  ((length text <= max_length)%nat ->
   document_content text = _clean_extracted_text text).
Proof.
  unfold document_content, truncate. split.
  - etransitivity; [apply length_sanitize|].
    destruct (max_length <? length text)%nat eqn:Hlt.
    + rewrite length_app, length_take. lia.
    + apply Nat.ltb_ge in Hlt. lia.
  - intros Hle. apply Nat.ltb_ge in Hle. now rewrite Hle.
Qed.

End NoGrowth.

Lemma document_content_is_bounded_witness :
  (length notes <= max_length)%nat /\
  document_content (RT := ascii_runtime) notes =
    _clean_extracted_text (RT := ascii_runtime) notes.
Proof.
  assert (length notes <= max_length)%nat as Hle
    by (apply Nat.leb_le; vm_compute; reflexivity).
  split; [exact Hle|].
  exact (proj2 (document_content_is_bounded (RT := ascii_runtime) notes) Hle).
Defined.

(** ** [os.path.splitext] *)

Lemma rfind_from_bounds c p : forall i found,
  rfind_from i found c p = found \/
  ((i <= rfind_from i found c p < i + Z.of_nat (length p))%Z /\
   p !! Z.to_nat (rfind_from i found c p - i) = Some c).
Proof.
  induction p as [|x p IH]; intros i found; simpl; [now left|].
  destruct (IH (i + 1)%Z (if N.eqb x c then i else found)) as [H | [H1 H2]].
  - rewrite H. destruct (N.eqb x c) eqn:Hx; [|now left].
    right. apply N.eqb_eq in Hx. subst x.
    split; [lia|]. now rewrite Z.sub_diag.
  - right. split; [lia|].
    replace (Z.to_nat (rfind_from (i + 1) (if N.eqb x c then i else found) c p - i))
      with (S (Z.to_nat (rfind_from (i + 1) (if N.eqb x c then i else found) c p - (i + 1))))
      by lia.
    exact H2.
Qed.

(** No occurrence lies after the index found. *)
Lemma rfind_from_last c p : forall i found j,
  p !! j = Some c -> (i + Z.of_nat j <= rfind_from i found c p)%Z.
Proof.
  induction p as [|x p IH]; intros i found j Hj; [discriminate|].
  simpl. destruct j as [|j].
  - simpl in Hj. injection Hj as ->. rewrite N.eqb_refl.
    destruct (rfind_from_bounds c p (i + 1)%Z i) as [H | [H _]]; lia.
  - simpl in Hj. specialize (IH (i + 1)%Z (if N.eqb x c then i else found) j Hj).
    lia.
Qed.

(** X3: [splitext] cuts the path in two without losing a character, and
    the extension is empty or a dot followed by characters that are
    neither a dot nor a slash. *)
Theorem splitext_spec (p : pystr) :
  fst (splitext p) ++ snd (splitext p) = p /\
  (snd (splitext p) = [] \/
   exists t, snd (splitext p) = 46%N :: t /\ ~ In 46%N t /\ ~ In 47%N t).
Proof.
  unfold splitext. cbv zeta.
  destruct (rfind 47 p <? rfind 46 p)%Z eqn:Hlt; [|simpl; split; [apply app_nil_r | now left]].
  destruct (forallb _ _); [simpl; split; [apply app_nil_r | now left]|].
  cbn [fst snd]. split; [apply take_drop|]. right.
  apply Z.ltb_lt in Hlt. unfold rfind in *.
  destruct (rfind_from_bounds 47 p 0 (-1)) as [H47 | [H47 _]];
    (destruct (rfind_from_bounds 46 p 0 (-1)) as [H46 | [Hb Hd]]; [lia|]);
    rewrite Z.sub_0_r in Hd;
    (exists (drop (S (Z.to_nat (rfind_from 0 (-1) 46 p))) p);
     split; [now apply drop_S|]);
    split; intros Hin; apply list_elem_of_In, list_elem_of_lookup in Hin as [j Hj];
    rewrite lookup_drop in Hj;
    [ pose proof (rfind_from_last 46 p 0 (-1) _ Hj)
    | pose proof (rfind_from_last 47 p 0 (-1) _ Hj)
    | pose proof (rfind_from_last 46 p 0 (-1) _ Hj)
    | pose proof (rfind_from_last 47 p 0 (-1) _ Hj) ]; lia.
Qed.

(** ** The other paths of the extractor *)

Lemma line_texts_spec blocks :
  (lines_have_text blocks /\ line_texts blocks = Return (line_block_texts blocks)) \/
  (~ lines_have_text blocks /\ line_texts blocks = Raise (KeyError (py "'Text'"))).
Proof.
  unfold lines_have_text.
  induction blocks as [|b rest IH]; [left; split; [constructor | reflexivity]|].
  cbn [line_texts line_block_texts flat_map].
  destruct (bool_decide (BlockType b = Some (py "LINE"))) eqn:Hb.
  - apply bool_decide_eq_true in Hb. destruct (Text b) as [t|] eqn:Ht.
    + destruct IH as [[Hall Heq] | [Hnot Heq]]; rewrite Heq.
      * left. split; [|reflexivity]. constructor; [|exact Hall].
        intros _. rewrite Ht. discriminate.
      * right. split; [|reflexivity]. intros H. inversion H; subst. contradiction.
    + right. split; [|reflexivity]. intros H. inversion H as [|? ? Hhd _]; subst.
      now apply Hhd.
  - apply bool_decide_eq_false in Hb.
    destruct IH as [[Hall Heq] | [Hnot Heq]]; rewrite Heq.
    + left. split; [|reflexivity]. constructor; [|exact Hall].
      intros H. contradiction.
    + right. split; [|reflexivity]. intros H. inversion H; subst. contradiction.
Qed.

Section ExtractorPaths.
Context `{RT : PyRuntime}.
Variable E : env.

(** X4: a key with the extension .txt, .md, .csv or .log, in any case, is
    read from the bucket under the key as given, with one [get_object]
    and no call to detection; the text is the UTF-8 decoding of the
    bytes, or, when they are no UTF-8, their Latin-1 decoding, which has
    one character per byte; the text is not sanitized. *)
Theorem plain_text_is_read_directly bucket key st data :
  in_tuple (snd (splitext (str_lower key))) text_extensions = true ->
  s3_get_object E (tick st) bucket key = Return data ->
  fst (extract_text E bucket key st) =
    Return (match decode_utf8 data with
            | Some text => text
            | None => decode_latin1 data
            end) /\
  trace (snd (extract_text E bucket key st)) = trace st ++ [GetObject bucket key] /\
  length (decode_latin1 data) = length data.
Proof.
  intros Hext Hget.
  assert (extract_text E bucket key st =
          (Return (match decode_utf8 data with
                   | Some text => text
                   | None => decode_latin1 data
                   end),
           interact (Some (GetObject bucket key)) st)) as Hrun.
  { unfold extract_text, try_except, extract_text_body. rewrite Hext.
    unfold bind, get_object. rewrite Hget. now destruct (decode_utf8 data). }
  rewrite Hrun. split; [reflexivity|]. split; [reflexivity | apply length_map].
Qed.

(** X5: for any other key, when detection answers and every LINE block
    has its text, the text extracted is the texts of the LINE blocks, in
    the order returned, joined by newlines; blocks of other types count
    for nothing, and the object itself is never read. *)
Theorem detected_lines_are_joined bucket key st blocks :
  in_tuple (snd (splitext (str_lower key))) text_extensions = false ->
  textract_detect_document_text E (tick st) bucket key = Return blocks ->
  lines_have_text blocks ->
  fst (extract_text E bucket key st) = Return (join [LF] (line_block_texts blocks)) /\
  trace (snd (extract_text E bucket key st)) =
    trace st ++ [DetectDocumentText bucket key].
Proof.
  intros Hext Hdet Hall.
  assert (extract_text E bucket key st =
          (Return (join [LF] (line_block_texts blocks)),
           interact (Some (DetectDocumentText bucket key)) st)) as Hrun.
  { unfold extract_text, try_except, extract_text_body. rewrite Hext.
    unfold bind, detect_document_text, lift. rewrite Hdet.
    destruct (line_texts_spec blocks) as [[_ Heq] | [Hnot _]]; [|contradiction].
    now rewrite Heq. }
  rewrite Hrun. split; reflexivity.
Qed.

(** X6: a failure of detection other than an unsupported format leaves
    the extractor as it is, after the one call to detection: the object
    is not read and nothing is salvaged. *)
Theorem detection_failure_propagates bucket key st e :
  in_tuple (snd (splitext (str_lower key))) text_extensions = false ->
  textract_detect_document_text E (tick st) bucket key = Raise e ->
  (forall msg, e <> UnsupportedDocumentException msg) ->
  extract_text E bucket key st =
    (Raise e, interact (Some (DetectDocumentText bucket key)) st).
Proof.
  intros Hext Hdet Hne.
  unfold extract_text, try_except, extract_text_body. rewrite Hext.
  unfold bind, detect_document_text. rewrite Hdet.
  destruct e; try reflexivity. now destruct (Hne msg).
Qed.

(** X7: when detection reports an unsupported format and the raw object
    then cannot be read, the extractor raises the error of the read, not
    the report of detection. *)
Theorem fallback_read_failure_propagates bucket key st msg e :
  in_tuple (snd (splitext (str_lower key))) text_extensions = false ->
  textract_detect_document_text E (tick st) bucket key =
    Raise (UnsupportedDocumentException msg) ->
  s3_get_object E (S (tick st)) bucket key = Raise e ->
  fst (extract_text E bucket key st) = Raise e /\
  trace (snd (extract_text E bucket key st)) =
    trace st ++ [DetectDocumentText bucket key; GetObject bucket key].
Proof.
  intros Hext Hdet Hget.
  assert (extract_text E bucket key st =
          (Raise e,
           interact (Some (GetObject bucket key))
             (interact (Some (DetectDocumentText bucket key)) st))) as Hrun.
  { unfold extract_text, try_except, extract_text_body. rewrite Hext.
    unfold bind at 1. unfold detect_document_text. rewrite Hdet.
    unfold bind, get_object. simpl. now rewrite Hget. }
  rewrite Hrun. simpl. split; [reflexivity|]. now rewrite <- app_assoc.
Qed.

End ExtractorPaths.

Lemma plain_text_is_read_directly_witness :
  in_tuple (snd (splitext (str_lower (PyRuntime := ascii_runtime) (py "Notes.TXT"))))
    text_extensions = true /\
  s3_get_object healthy_env (tick initial_state) (py "uploads") (py "Notes.TXT")
    = Return (bytes_of notes) /\
  fst (extract_text (RT := ascii_runtime) healthy_env (py "uploads") (py "Notes.TXT")
         initial_state) = Return notes /\
  trace (snd (extract_text (RT := ascii_runtime) healthy_env (py "uploads")
                (py "Notes.TXT") initial_state))
    = [GetObject (py "uploads") (py "Notes.TXT")].
Proof.
  assert (in_tuple (snd (splitext (str_lower (PyRuntime := ascii_runtime)
                                     (py "Notes.TXT")))) text_extensions = true)
    as Hext by (vm_compute; reflexivity).
  pose proof (plain_text_is_read_directly (RT := ascii_runtime) healthy_env
                (py "uploads") (py "Notes.TXT") initial_state (bytes_of notes)
                Hext eq_refl) as [H1 [H2 _]].
  split; [exact Hext|]. split; [reflexivity|]. split; [|exact H2].
  rewrite H1. vm_compute. reflexivity.
Defined.

Lemma detected_lines_are_joined_witness :
  in_tuple (snd (splitext (str_lower (PyRuntime := ascii_runtime) (py "scan.png"))))
    text_extensions = false /\
  fst (extract_text (RT := ascii_runtime) scanned_env (py "uploads") (py "scan.png")
         initial_state) = Return (py "Hello" ++ [LF] ++ py "World").
Proof.
  assert (in_tuple (snd (splitext (str_lower (PyRuntime := ascii_runtime)
                                     (py "scan.png")))) text_extensions = false)
    as Hext by (vm_compute; reflexivity).
  assert (lines_have_text
            [page_block; line_block (py "Hello"); word_block (py "Hello");
             line_block (py "World"); word_block (py "World")]) as Hall.
  { repeat (constructor;
              [intros H; simpl; first [discriminate | vm_compute in H; discriminate H]|]).
    constructor. }
  split; [exact Hext|].
  exact (proj1 (detected_lines_are_joined (RT := ascii_runtime) scanned_env
                  (py "uploads") (py "scan.png") initial_state _ Hext eq_refl Hall)).
Defined.

Lemma detection_failure_propagates_witness :
  in_tuple (snd (splitext (str_lower (PyRuntime := ascii_runtime) (py "scan.png"))))
    text_extensions = false /\
  fst (extract_text (RT := ascii_runtime) throttled_env (py "uploads") (py "scan.png")
         initial_state) = Raise (ClientError (py "ThrottlingException")).
Proof.
  assert (in_tuple (snd (splitext (str_lower (PyRuntime := ascii_runtime)
                                     (py "scan.png")))) text_extensions = false)
    as Hext by (vm_compute; reflexivity).
  split; [exact Hext|].
  rewrite (detection_failure_propagates (RT := ascii_runtime) throttled_env
             (py "uploads") (py "scan.png") initial_state
             (ClientError (py "ThrottlingException")) Hext eq_refl
             ltac:(discriminate)).
  reflexivity.
Defined.

Lemma fallback_read_failure_propagates_witness :
  in_tuple (snd (splitext (str_lower (PyRuntime := ascii_runtime) (py "scan.png"))))
    text_extensions = false /\
  fst (extract_text (RT := ascii_runtime) unreadable_env (py "uploads") (py "scan.png")
         initial_state) = Raise (ClientError (py "AccessDenied")).
Proof.
  assert (in_tuple (snd (splitext (str_lower (PyRuntime := ascii_runtime)
                                     (py "scan.png")))) text_extensions = false)
    as Hext by (vm_compute; reflexivity).
  split; [exact Hext|].
  exact (proj1 (fallback_read_failure_propagates (RT := ascii_runtime) unreadable_env
                  (py "uploads") (py "scan.png") initial_state
                  (py "Unsupported document format") (ClientError (py "AccessDenied"))
                  Hext eq_refl eq_refl)).
Defined.

(** ** More on the summarizer *)

Lemma filter_all_true {A} (f : A -> bool) l :
  (forall x, In x l -> f x = true) -> List.filter f l = l.
Proof.
  induction l as [|x l IH]; intros H; [reflexivity|]. simpl.
  rewrite (H x (or_introl eq_refl)). f_equal. apply IH.
  intros y Hy. apply H. now right.
Qed.

Lemma strip_idempotent s : strip (strip s) = strip s.
Proof.
  assert (lstrip (strip s) = strip s) as Hl.
  { destruct (strip s) as [|c r] eqn:Hs; [reflexivity|].
    simpl. now rewrite (strip_head _ _ _ Hs). }
  unfold strip at 1. rewrite Hl. unfold rstrip.
  assert (lstrip (rev (strip s)) = rev (strip s)) as Hr.
  { destruct (rev (strip s)) as [|c r] eqn:Hs; [reflexivity|].
    apply (f_equal (@rev N)) in Hs. rewrite rev_involutive in Hs. simpl in Hs.
    simpl. now rewrite (strip_last _ _ _ Hs). }
  rewrite Hr. apply rev_involutive.
Qed.

(** X9: cleaning a summary that was cleaned changes nothing, and cleaning
    never lengthens an answer. *)
Theorem clean_summary_is_idempotent (answer : pystr) :
  clean_summary (clean_summary answer) = clean_summary answer /\
  (length (clean_summary answer) <= length answer)%nat.
Proof.
  split.
  - rewrite (clean_summary_filter (clean_summary answer)).
    rewrite filter_all_true; [rewrite clean_summary_filter; apply strip_idempotent|].
    intros c Hc. rewrite clean_summary_filter in Hc.
    apply strip_incl, List.filter_In in Hc. tauto.
  - rewrite clean_summary_filter.
    etransitivity; [apply length_strip | apply List.filter_length_le].
Qed.

Section SummarizerMore.
Context `{RT : PyRuntime}.
Variable E : env.

(** X8: a call of the summarizer makes one request to the generation
    service, for the model deepseek.v3-v1:0 whatever the configured model
    identifier is, and changes neither the table nor the bucket; an error
    of the service is raised as it is, and an answer without a choice
    raises IndexError. *)
Theorem generation_request_and_failures (text : pystr) (st : state) :
  trace (snd (generate_summary E text st)) =
    trace st ++
    [InvokeModel (py "deepseek.v3-v1:0") (request_body E (document_content text))] /\
  table (snd (generate_summary E text st)) = table st /\
  objects (snd (generate_summary E text st)) = objects st /\
  (forall e,
     bedrock_invoke_model E (tick st) (py "deepseek.v3-v1:0")
       (request_body E (document_content text)) = Raise e ->
     fst (generate_summary E text st) = Raise e) /\
  (bedrock_invoke_model E (tick st) (py "deepseek.v3-v1:0")
     (request_body E (document_content text)) = Return [] ->
   fst (generate_summary E text st) = Raise (IndexError (py "list index out of range"))).
Proof.
  rewrite generate_summary_run. cbv zeta.
  destruct (bedrock_invoke_model E _ _ _) as [[|answer rest]|e]; simpl;
    repeat split; try reflexivity; try discriminate.
  intros e' H. now injection H as ->.
Qed.

(** X10: two answers that differ only in formatting characters give the
    same summary: a hyphen or an asterisk inside a banned phrase does not
    hide it from the guard. *)
Theorem formatting_does_not_change_the_summary text st1 st2 a1 a2 rest1 rest2 :
  List.filter kept_in_summary a1 = List.filter kept_in_summary a2 ->
  bedrock_invoke_model E (tick st1) (py "deepseek.v3-v1:0")
    (request_body E (document_content text)) = Return (a1 :: rest1) ->
  bedrock_invoke_model E (tick st2) (py "deepseek.v3-v1:0")
    (request_body E (document_content text)) = Return (a2 :: rest2) ->
  fst (generate_summary E text st1) = fst (generate_summary E text st2).
Proof.
  intros Heq H1 H2. rewrite !generate_summary_run. cbv zeta. rewrite H1, H2.
  simpl. rewrite !clean_summary_filter.
  unfold kept_in_summary in Heq. now rewrite Heq.
Qed.

End SummarizerMore.

Lemma generation_request_and_failures_witness :
  fst (generate_summary (RT := ascii_runtime) generator_down_env notes initial_state)
    = Raise (ClientError (py "ModelTimeoutException")) /\
  fst (generate_summary (RT := ascii_runtime) no_choice_env notes initial_state)
    = Raise (IndexError (py "list index out of range")).
Proof.
  split.
  - exact (proj1 (proj2 (proj2 (proj2
      (generation_request_and_failures (RT := ascii_runtime) generator_down_env
         notes initial_state)))) _ eq_refl).
  - exact (proj2 (proj2 (proj2 (proj2
      (generation_request_and_failures (RT := ascii_runtime) no_choice_env
         notes initial_state)))) eq_refl).
Defined.

Lemma formatting_does_not_change_the_summary_witness :
  List.filter kept_in_summary hyphenated_answer =
    List.filter kept_in_summary plain_answer /\
  fst (generate_summary (RT := ascii_runtime) two_answers_env notes initial_state)
    = fst (generate_summary (RT := ascii_runtime) two_answers_env notes
             (interact None initial_state)) /\
  fst (generate_summary (RT := ascii_runtime) two_answers_env notes initial_state)
    = Return _generic_failure_summary.
Proof.
  assert (List.filter kept_in_summary hyphenated_answer =
          List.filter kept_in_summary plain_answer) as Heq
    by (vm_compute; reflexivity).
  split; [exact Heq|]. split.
  - exact (formatting_does_not_change_the_summary (RT := ascii_runtime)
             two_answers_env notes initial_state (interact None initial_state)
             hyphenated_answer plain_answer [] [] Heq eq_refl eq_refl).
  - vm_compute. reflexivity.
Defined.

(** ** What the helpers leave behind *)

(** X12: two source keys never share an artifact key, and the artifact
    key of a source is never that source's own key. *)
Theorem artifact_keys_do_not_collide (k1 k2 : pystr) :
  (k1 <> k2 -> summary_key_of k1 <> summary_key_of k2) /\
  summary_key_of k1 <> k1.
Proof.
  unfold summary_key_of. split.
  - intros Hne H. apply app_inv_head, app_inv_tail in H. contradiction.
  - intros H. apply (f_equal (@length N)) in H.
    rewrite !length_app in H. simpl in H. lia.
Qed.

Lemma artifact_keys_do_not_collide_witness :
  py "a.txt" <> py "b.txt" /\
  summary_key_of (py "a.txt") <> summary_key_of (py "b.txt").
Proof.
  assert (py "a.txt" <> py "b.txt") as Hne by discriminate.
  split; [exact Hne|].
  exact (proj1 (artifact_keys_do_not_collide (py "a.txt") (py "b.txt")) Hne).
Defined.




Section Helpers.
Context `{RT : PyRuntime}.
Variable E : env.

(** X11: when the bucket accepts the write, [store_summary] returns the
    artifact key summaries/<key>.summary.txt; the output bucket then
    holds, under that key, the summary as body, replacing whatever was
    there, with the lengths of text and summary in its metadata; no other
    object and no record changes. *)
Theorem stored_summary_can_be_read_back key summary text st :
  s3_put_object E (S (tick st)) (summary_object E key summary text (clock E (tick st)))
    = None ->
  fst (store_summary E key summary text st) = Return (summary_key_of key) /\
  objects (snd (store_summary E key summary text st))
    !! (OUTPUT_BUCKET E, summary_key_of key)
    = Some (summary_object E key summary text (clock E (tick st))) /\
  (forall k', k' <> (OUTPUT_BUCKET E, summary_key_of key) ->
     objects (snd (store_summary E key summary text st)) !! k' = objects st !! k') /\
  table (snd (store_summary E key summary text st)) = table st /\
  trace (snd (store_summary E key summary text st)) =
    trace st ++ [PutObject (summary_object E key summary text (clock E (tick st)))].
Proof.
  intros Hput. unfold summary_object in Hput.
  assert (store_summary E key summary text st =
          (Return (summary_key_of key),
           set_objects
             (<[(OUTPUT_BUCKET E, summary_key_of key) :=
                  summary_object E key summary text (clock E (tick st))]> (objects st))
             (interact (Some (PutObject
                (summary_object E key summary text (clock E (tick st)))))
                (interact None st)))) as Hrun.
  { unfold store_summary, bind, utcnow, put_object, summary_object.
    cbn [tick interact]. now rewrite Hput. }
  rewrite Hrun. cbn [fst snd objects table trace set_objects interact].
  split; [reflexivity|]. split; [apply lookup_insert_eq|].
  split; [|split; reflexivity].
  intros k' Hk'. now apply lookup_insert_ne.
Qed.


(** X15: [send_notification] never raises, even when the topic rejects
    the message; it makes one [publish] and changes neither the table nor
    the bucket.  The message carries document_id, document_key, status
    and timestamp, a summary_key only when one is given and not empty,
    and an error_message only when one is given and not empty. *)
Theorem notification_is_best_effort document_id key summary_key status error_message st :
  fst (send_notification E document_id key summary_key status error_message st)
    = Return tt /\
  trace (snd (send_notification E document_id key summary_key status error_message st))
    = trace st ++
      [Publish (notification E document_id key summary_key status error_message
                  (clock E (tick st)))] /\
  table (snd (send_notification E document_id key summary_key status error_message st))
    = table st /\
  objects (snd (send_notification E document_id key summary_key status error_message st))
    = objects st /\
  Message (notification E document_id key summary_key status error_message
             (clock E (tick st))) !! "status"%string = Some (AStr status) /\
  Message (notification E document_id key summary_key status error_message
             (clock E (tick st))) !! "document_id"%string = Some (AStr document_id) /\
  Message (notification E document_id key summary_key status error_message
             (clock E (tick st))) !! "document_key"%string = Some (AStr key) /\
  Message (notification E document_id key summary_key status error_message
             (clock E (tick st))) !! "timestamp"%string
    = Some (AInstant (clock E (tick st))) /\
  Message (notification E document_id key summary_key status error_message
             (clock E (tick st))) !! "summary_key"%string
    = match summary_key with
      | Some (c :: s) => Some (AStr (c :: s))
      | _ => None
      end /\
  Message (notification E document_id key summary_key status error_message
             (clock E (tick st))) !! "error_message"%string
    = match error_message with
      | Some (c :: s) => Some (AStr (c :: s))
      | _ => None
      end.
Proof.
  rewrite send_notification_run. cbn [fst snd trace table objects interact].
  unfold notification. cbn [Message]. unfold notification_message.
  destruct summary_key as [[|c1 s1]|], error_message as [[|c2 s2]|];
    cbn [truthy default]; repeat split; reflexivity.
Qed.

End Helpers.

Lemma stored_summary_can_be_read_back_witness :
  s3_put_object healthy_env (S (tick initial_state))
    (summary_object healthy_env (py "notes.txt") sample_summary notes
       (clock healthy_env (tick initial_state))) = None /\
  fst (store_summary healthy_env (py "notes.txt") sample_summary notes initial_state)
    = Return (py "summaries/notes.txt.summary.txt") /\
  Body <$> (objects (snd (store_summary healthy_env (py "notes.txt") sample_summary
                            notes initial_state))
            !! (py "summaries-bucket", py "summaries/notes.txt.summary.txt"))
    = Some sample_summary.
Proof.
  pose proof (stored_summary_can_be_read_back healthy_env (py "notes.txt")
                sample_summary notes initial_state eq_refl) as [H1 [H2 _]].
  split; [reflexivity|]. split; [exact H1|].
  change (py "summaries-bucket", py "summaries/notes.txt.summary.txt")
    with (OUTPUT_BUCKET healthy_env, summary_key_of (py "notes.txt")).
  now rewrite H2.
Defined.


(** ** The bookkeeping of an attempt *)


Lemma no_bookkeeping_refl s : no_bookkeeping s s.
Proof. reflexivity. Qed.

Lemma no_bookkeeping_trans s1 s2 s3 :
  no_bookkeeping s1 s2 -> no_bookkeeping s2 s3 -> no_bookkeeping s1 s3.
Proof. unfold no_bookkeeping. congruence. Qed.


Lemma objects_only_refl k s : objects_only k s s.
Proof. intros k' _. reflexivity. Qed.

Lemma objects_only_trans k s1 s2 s3 :
  objects_only k s1 s2 -> objects_only k s2 s3 -> objects_only k s1 s3.
Proof. intros H1 H2 k' Hk'. now rewrite H2, H1. Qed.

Section Bookkeeping.
Context `{RT : PyRuntime}.
Variable E : env.

Local Hint Resolve no_bookkeeping_refl no_bookkeeping_trans : core.





Lemma store_metadata_objects document_id key status ts additional st :
  objects (snd (store_metadata E document_id key status ts additional st)) = objects st.
Proof.
  rewrite store_metadata_run. cbn [snd].
  destruct (dynamodb_put_item E _ _); [reflexivity|].
  now destruct (item_key _).
Qed.

Lemma send_notification_state document_id key summary_key status error_message st :
  snd (send_notification E document_id key summary_key status error_message st) =
  interact (Some (Publish (notification E document_id key summary_key status
                             error_message (clock E (tick st)))))
    (interact None st).
Proof. now rewrite send_notification_run. Qed.




(** X16: on an event without records the handler raises IndexError;
    before that it writes a FAILED record with UNKNOWN as document_id and
    as document_key, under the start time of the invocation, and sends a
    FAILED notification; it reads no object, asks neither detection nor
    generation, and stores no artifact. *)
Theorem empty_event_is_recorded_as_unknown (st : state) :
  fst (lambda_handler E [] st) = Raise (IndexError (py "list index out of range")) /\
  trace (snd (lambda_handler E [] st)) =
    trace st ++
    [PutItem (metadata_item UNKNOWN UNKNOWN (py "FAILED") (attempt_start E st)
                (Some (failed_data (IndexError (py "list index out of range"))))
                (clock E (S (tick st))));
     Publish (notification E UNKNOWN UNKNOWN None (py "FAILED")
                (Some (py "list index out of range")) (clock E (S (S (S (tick st))))))] /\
  item_key (metadata_item UNKNOWN UNKNOWN (py "FAILED") (attempt_start E st)
              (Some (failed_data (IndexError (py "list index out of range"))))
              (clock E (S (tick st))))
    = Some (UNKNOWN, attempt_start E st) /\
  objects (snd (lambda_handler E [] st)) = objects st.
Proof.
  assert (lambda_handler E [] st =
          on_failure E None None (attempt_start E st)
            (IndexError (py "list index out of range")) (interact None st)) as Hrun.
  { reflexivity. }
  rewrite Hrun. split; [now rewrite on_failure_run|].
  split; [rewrite on_failure_trace; reflexivity|].
  split; [apply metadata_item_key, failed_data_no_key|].
  rewrite on_failure_run. cbn [snd]. rewrite send_notification_state.
  cbn [objects interact]. now rewrite store_metadata_objects.
Qed.

End Bookkeeping.

(** ** A successful attempt *)

Lemma metadata_item_lookup_additional document_id key status ts d now (a : string) v :
  d !! a = Some v ->
  metadata_item document_id key status ts (Some d) now !! a = Some v.
Proof.
  intros H. unfold metadata_item. case_bool_decide as Hd.
  - subst d. rewrite lookup_empty in H. discriminate H.
  - now apply lookup_union_Some_l.
Qed.

Section SuccessfulAttempt.
Context `{RT : PyRuntime}.
Variable E : env.

(** The run of the handler when extraction, generation and the artifact
    write succeed. *)
Lemma successful_attempt_run r rest st text st2 summary st3 :
  extract_text E (bucket_name r) (attempt_key r) (after_processing_record E r st)
    = (Return text, st2) ->
  ~ blank text ->
  generate_summary E text st2 = (Return summary, st3) ->
  s3_put_object E (S (tick st3))
    (artifact_request E r summary text (clock E (tick st3))) = None ->
  lambda_handler E (r :: rest) st =
  (Return (success_response E r st summary),
   snd (send_notification E (attempt_id E st) (attempt_key r)
          (Some (summary_key_of (attempt_key r))) (py "SUCCESS") None
          (snd (store_metadata E (attempt_id E st) (attempt_key r) (py "COMPLETED")
                  (attempt_start E st)
                  (Some (completed_data (summary_key_of (attempt_key r)) (length text)
                           (length summary)
                           (clock E (S (S (tick st3))) - attempt_start E st)%Z))
                  (interact None (after_artifact E r summary text st3)))))).
Proof.
  intros Hext Hnb Hgen Hput.
  apply handler_success. unfold process_document, bind.
  pose proof (store_metadata_returns E (attempt_id E st) (attempt_key r)
                (py "PROCESSING") (attempt_start E st) None
                (interact None (interact None st))) as H1.
  unfold after_processing_record in Hext.
  destruct (store_metadata E _ _ _ _ _ _) as [o1 s1]. simpl in H1, Hext. subst o1.
  rewrite Hext.
  destruct (strip text) as [|c t] eqn:Hs.
  { exfalso. apply Hnb. now apply strip_nil. }
  rewrite Hgen.
  assert (store_summary E (attempt_key r) summary text st3 =
          (Return (summary_key_of (attempt_key r)),
           after_artifact E r summary text st3)) as Hstore.
  { unfold store_summary, bind, utcnow, put_object. cbn [tick interact].
    unfold artifact_request in Hput. now rewrite Hput. }
  rewrite Hstore. unfold utcnow. cbv beta iota.
  change (tick (after_artifact E r summary text st3)) with (S (S (tick st3))).
  pose proof (store_metadata_returns E (attempt_id E st) (attempt_key r)
                (py "COMPLETED") (attempt_start E st)
                (Some (completed_data (summary_key_of (attempt_key r)) (length text)
                         (length summary)
                         (clock E (S (S (tick st3))) - attempt_start E st)%Z))
                (interact None (after_artifact E r summary text st3))) as H5.
  destruct (store_metadata E _ _ (py "COMPLETED") _ _ _) as [o5 s5].
  cbn [fst snd] in H5 |- *. subst o5.
  pose proof (send_notification_returns E (attempt_id E st) (attempt_key r)
                (Some (summary_key_of (attempt_key r))) (py "SUCCESS") None s5) as H6.
  destruct (send_notification E _ _ _ _ _ s5) as [o6 s6].
  cbn [fst snd] in H6 |- *. subst o6. reflexivity.
Qed.

(** X18: when the text extracted is not blank, the generator answers and
    the bucket accepts the artifact, the handler returns status 200 with
    the document_id, the key, the artifact key and the length of the
    summary; the output bucket holds the summary under the artifact key;
    after the artifact the handler writes the COMPLETED record, carrying
    the artifact key, the lengths of text and summary and the time from
    the start of the attempt to the artifact, and sends the SUCCESS
    notification. *)
Theorem successful_attempt r rest st text st2 summary st3 :
  extract_text E (bucket_name r) (attempt_key r) (after_processing_record E r st)
    = (Return text, st2) ->
  ~ blank text ->
  generate_summary E text st2 = (Return summary, st3) ->
  s3_put_object E (S (tick st3))
    (artifact_request E r summary text (clock E (tick st3))) = None ->
  fst (lambda_handler E (r :: rest) st) = Return (success_response E r st summary) /\
  objects (snd (lambda_handler E (r :: rest) st))
    !! (OUTPUT_BUCKET E, summary_key_of (attempt_key r))
    = Some (artifact_request E r summary text (clock E (tick st3))) /\
  trace (snd (lambda_handler E (r :: rest) st)) =
    trace st3 ++
    [PutObject (artifact_request E r summary text (clock E (tick st3)));
     PutItem (completed_item E r st text summary (clock E (S (S (tick st3))))
                (clock E (S (S (S (tick st3))))));
     Publish (notification E (attempt_id E st) (attempt_key r)
                (Some (summary_key_of (attempt_key r))) (py "SUCCESS") None
                (clock E (S (S (S (S (S (tick st3))))))))] /\
  completed_item E r st text summary (clock E (S (S (tick st3))))
      (clock E (S (S (S (tick st3))))) !! "summary_key"%string
    = Some (AStr (summary_key_of (attempt_key r))) /\
  completed_item E r st text summary (clock E (S (S (tick st3))))
      (clock E (S (S (S (tick st3))))) !! "text_length"%string
    = Some (ANum (Z.of_nat (length text))) /\
  completed_item E r st text summary (clock E (S (S (tick st3))))
      (clock E (S (S (S (tick st3))))) !! "summary_length"%string
    = Some (ANum (Z.of_nat (length summary))) /\
  completed_item E r st text summary (clock E (S (S (tick st3))))
      (clock E (S (S (S (tick st3))))) !! "processing_duration"%string
    = Some (ADuration (clock E (S (S (tick st3))) - attempt_start E st)%Z).
Proof.
  intros Hext Hnb Hgen Hput.
  rewrite (successful_attempt_run r rest st text st2 summary st3 Hext Hnb Hgen Hput).
  cbn [fst snd]. split; [reflexivity|].
  rewrite send_notification_state. cbn [objects trace interact].
  rewrite store_metadata_objects, store_metadata_trace, store_metadata_tick.
  split; [apply lookup_insert_eq|].
  split; [cbn [trace tick interact after_artifact set_objects];
          rewrite <- !app_assoc; reflexivity|].
  unfold completed_item.
  repeat split; apply metadata_item_lookup_additional; reflexivity.
Qed.

(** X20: after such an attempt the key the upload form polls for the
    uploaded file name, summaries/<name>.summary.txt, is the key under
    which the output bucket holds the summary. *)
Theorem polled_key_finds_the_summary r rest st text st2 summary st3 :
  extract_text E (bucket_name r) (attempt_key r) (after_processing_record E r st)
    = (Return text, st2) ->
  ~ blank text ->
  generate_summary E text st2 = (Return summary, st3) ->
  s3_put_object E (S (tick st3))
    (artifact_request E r summary text (clock E (tick st3))) = None ->
  Body <$> (objects (snd (lambda_handler E (r :: rest) st))
            !! (OUTPUT_BUCKET E, polled_summary_key (attempt_key r)))
  = Some summary.
Proof.
  intros Hext Hnb Hgen Hput.
  rewrite (successful_attempt_run r rest st text st2 summary st3 Hext Hnb Hgen Hput).
  cbn [snd]. rewrite send_notification_state. cbn [objects interact].
  rewrite store_metadata_objects.
  change (polled_summary_key (attempt_key r)) with (summary_key_of (attempt_key r)).
  cbn [objects interact after_artifact set_objects].
  now rewrite lookup_insert_eq.
Qed.

End SuccessfulAttempt.

Lemma successful_attempt_witness :
  ~ blank notes /\
  fst healthy_run = Return (success_response (RT := ascii_runtime) healthy_env upload
                              initial_state sample_summary) /\
  Body <$> (objects (snd healthy_run)
            !! (py "summaries-bucket", py "summaries/notes.txt.summary.txt"))
    = Some sample_summary.
Proof.
  assert (~ blank notes) as Hnb by (vm_compute; discriminate).
  assert (extract_text (RT := ascii_runtime) healthy_env (bucket_name upload)
            (attempt_key (RT := ascii_runtime) upload)
            (after_processing_record (RT := ascii_runtime) healthy_env upload
               initial_state)
          = (Return notes,
             snd (extract_text (RT := ascii_runtime) healthy_env (bucket_name upload)
                    (attempt_key (RT := ascii_runtime) upload)
                    (after_processing_record (RT := ascii_runtime) healthy_env upload
                       initial_state)))) as Hext
    by (vm_compute; reflexivity).
  assert (generate_summary (RT := ascii_runtime) healthy_env notes
            (snd (extract_text (RT := ascii_runtime) healthy_env (bucket_name upload)
                    (attempt_key (RT := ascii_runtime) upload)
                    (after_processing_record (RT := ascii_runtime) healthy_env upload
                       initial_state)))
          = (Return sample_summary,
             snd (generate_summary (RT := ascii_runtime) healthy_env notes
               (snd (extract_text (RT := ascii_runtime) healthy_env (bucket_name upload)
                    (attempt_key (RT := ascii_runtime) upload)
                    (after_processing_record (RT := ascii_runtime) healthy_env upload
                       initial_state)))))) as Hgen
    by (vm_compute; reflexivity).
  pose proof (successful_attempt (RT := ascii_runtime) healthy_env upload []
                initial_state notes _ sample_summary _ Hext Hnb Hgen eq_refl)
    as [H1 [H2 _]].
  split; [exact Hnb|]. split; [exact H1|].
  change (py "summaries-bucket", py "summaries/notes.txt.summary.txt")
    with (OUTPUT_BUCKET healthy_env,
          summary_key_of (attempt_key (RT := ascii_runtime) upload)).
  unfold healthy_run. now rewrite H2.
Defined.

Lemma polled_key_finds_the_summary_witness :
  ~ blank notes /\
  Body <$> (objects (snd healthy_run)
            !! (OUTPUT_BUCKET healthy_env, polled_summary_key (py "notes.txt")))
    = Some sample_summary.
Proof.
  assert (~ blank notes) as Hnb by (vm_compute; discriminate).
  assert (extract_text (RT := ascii_runtime) healthy_env (bucket_name upload)
            (attempt_key (RT := ascii_runtime) upload)
            (after_processing_record (RT := ascii_runtime) healthy_env upload
               initial_state)
          = (Return notes,
             snd (extract_text (RT := ascii_runtime) healthy_env (bucket_name upload)
                    (attempt_key (RT := ascii_runtime) upload)
                    (after_processing_record (RT := ascii_runtime) healthy_env upload
                       initial_state)))) as Hext
    by (vm_compute; reflexivity).
  assert (generate_summary (RT := ascii_runtime) healthy_env notes
            (snd (extract_text (RT := ascii_runtime) healthy_env (bucket_name upload)
                    (attempt_key (RT := ascii_runtime) upload)
                    (after_processing_record (RT := ascii_runtime) healthy_env upload
                       initial_state)))
          = (Return sample_summary,
             snd (generate_summary (RT := ascii_runtime) healthy_env notes
               (snd (extract_text (RT := ascii_runtime) healthy_env (bucket_name upload)
                    (attempt_key (RT := ascii_runtime) upload)
                    (after_processing_record (RT := ascii_runtime) healthy_env upload
                       initial_state)))))) as Hgen
    by (vm_compute; reflexivity).
  split; [exact Hnb|].
  exact (polled_key_finds_the_summary (RT := ascii_runtime) healthy_env upload []
           initial_state notes _ sample_summary _ Hext Hnb Hgen eq_refl).
Defined.

(** ** One attempt, one artifact *)

Lemma objects_only_interact k c s : objects_only k s (interact c s).
Proof. intros k' _. reflexivity. Qed.

Section OneArtifact.
Context `{RT : PyRuntime}.
Variable E : env.
Variable k : pystr * pystr.

Local Hint Resolve objects_only_refl objects_only_trans : core.

Lemma store_metadata_objects_only document_id key status ts additional :
  respects (objects_only k) (store_metadata E document_id key status ts additional).
Proof.
  unfold respects, objects_only. intros s k' _. now rewrite store_metadata_objects.
Qed.

Lemma send_notification_objects_only document_id key summary_key status error_message :
  respects (objects_only k)
    (send_notification E document_id key summary_key status error_message).
Proof.
  unfold respects, objects_only. intros s k' _. now rewrite send_notification_state.
Qed.

Lemma extract_text_objects_only bucket key :
  respects (objects_only k) (extract_text E bucket key).
Proof.
  assert (forall b key', respects (objects_only k) (get_object E b key')) as Hget.
  { intros b key' s. apply objects_only_interact. }
  unfold extract_text. apply respects_try_except; [eauto| |].
  - unfold extract_text_body. destruct (in_tuple _ _).
    + apply respects_bind; [eauto | apply Hget |].
      intros data. destruct (decode_utf8 data); apply respects_ret; auto.
    + apply respects_bind; [eauto | |].
      * intros s. apply objects_only_interact.
      * intros blocks. apply respects_bind; [eauto | apply respects_lift; auto |].
        intros t. apply respects_ret; auto.
  - intros e. destruct e; try (apply respects_raise; auto).
    apply respects_bind; [eauto | apply Hget |].
    intros data. apply respects_ret; auto.
Qed.

Lemma generate_summary_objects_only text :
  respects (objects_only k) (generate_summary E text).
Proof.
  unfold respects, objects_only. intros s k' _. rewrite generate_summary_run. cbv zeta.
  now destruct (bedrock_invoke_model E _ _ _) as [[|a r]|e].
Qed.

Lemma store_summary_objects_only key summary text :
  k = (OUTPUT_BUCKET E, summary_key_of key) ->
  respects (objects_only k) (store_summary E key summary text).
Proof.
  unfold respects, objects_only. intros Hk s k' Hk'.
  unfold store_summary, bind, utcnow, put_object.
  cbn [tick interact].
  destruct (s3_put_object E _ _); cbn [snd objects set_objects interact ret];
    [reflexivity|].
  apply lookup_insert_ne. cbn [Bucket Key]. congruence.
Qed.

Lemma on_failure_objects_only document_id key ts e :
  respects (objects_only k) (on_failure E document_id key ts e).
Proof.
  unfold respects, objects_only. intros s k' _. rewrite on_failure_run. cbn [snd].
  rewrite send_notification_state. cbn [objects interact].
  now rewrite store_metadata_objects.
Qed.

Lemma process_document_objects_only bucket key document_id ts :
  k = (OUTPUT_BUCKET E, summary_key_of key) ->
  respects (objects_only k) (process_document E bucket key document_id ts).
Proof.
  intros Hk. unfold process_document.
  apply respects_bind; [eauto | apply store_metadata_objects_only |]. intros _.
  apply respects_bind; [eauto | apply extract_text_objects_only |]. intros text.
  destruct (strip text); [apply respects_raise; auto|].
  apply respects_bind; [eauto | apply generate_summary_objects_only |]. intros summary.
  apply respects_bind; [eauto | now apply store_summary_objects_only |].
  intros summary_key.
  apply respects_bind; [eauto | intros s; apply objects_only_interact |]. intros now.
  apply respects_bind; [eauto | apply store_metadata_objects_only |]. intros _.
  apply respects_bind; [eauto | apply send_notification_objects_only |]. intros _.
  apply respects_ret; auto.
Qed.

End OneArtifact.

Section Artifacts.
Context `{RT : PyRuntime}.
Variable E : env.

(** X19: whatever happens, an invocation changes the output bucket at no
    key other than the artifact key of its document,
    summaries/<key>.summary.txt in the configured output bucket. *)
Theorem attempt_touches_one_artifact r rest st :
  objects_only (OUTPUT_BUCKET E, summary_key_of (attempt_key r))
    st (snd (lambda_handler E (r :: rest) st)).
Proof.
  destruct (process_document E (bucket_name r) (attempt_key r) (attempt_id E st)
              (attempt_start E st) (interact None (interact None st)))
    as [[resp|e] s2] eqn:Hrun.
  - rewrite (handler_success E r rest st resp s2 Hrun). cbn [snd].
    pose proof (process_document_objects_only E _ (bucket_name r) (attempt_key r)
                  (attempt_id E st) (attempt_start E st) eq_refl
                  (interact None (interact None st))) as H.
    rewrite Hrun in H. exact H.
  - rewrite (handler_boundary E r rest st e s2 Hrun).
    apply (objects_only_trans _ _ s2).
    + pose proof (process_document_objects_only E _ (bucket_name r) (attempt_key r)
                    (attempt_id E st) (attempt_start E st) eq_refl
                    (interact None (interact None st))) as H.
      rewrite Hrun in H. exact H.
    + apply on_failure_objects_only.
Qed.

End Artifacts.

(** ** The earlier summarizer *)

Section LegacySummarizer.
Context `{RT : PyRuntime}.
Variable E : env.

Lemma legacy_generate_summary_run text st :
  Legacy.generate_summary E text st =
  let request := Legacy.request_body E (document_content text) in
  let st' := interact (Some (InvokeModel (py "deepseek.v3-v1:0") request)) st in
  match bedrock_invoke_model E (tick st) (py "deepseek.v3-v1:0") request with
  | Return (answer :: _) => (Return (Legacy.clean_summary answer), st')
  | Return [] => (Raise (IndexError (py "list index out of range")), st')
  | Raise e => (Raise e, st')
  end.
Proof.
  unfold Legacy.generate_summary, bind, invoke_model. cbv zeta.
  now destruct (bedrock_invoke_model E _ _ _) as [[|answer rest]|e].
Qed.

(** X21: the earlier summarizer has no guard: whatever the generator
    answers, banned phrases included, it returns that answer with its
    asterisks deleted and its ends trimmed; bullets and hyphens stay. *)
Theorem legacy_summary_is_the_answer text st answer rest :
  bedrock_invoke_model E (tick st) (py "deepseek.v3-v1:0")
    (Legacy.request_body E (document_content text)) = Return (answer :: rest) ->
  fst (Legacy.generate_summary E text st) =
    Return (strip (List.filter (fun c => negb (N.eqb c 42)) answer)) /\
  ~ In 42%N (strip (List.filter (fun c => negb (N.eqb c 42)) answer)) /\
  trimmed (strip (List.filter (fun c => negb (N.eqb c 42)) answer)).
Proof.
  intros Hans. rewrite legacy_generate_summary_run. cbv zeta. rewrite Hans.
  unfold Legacy.clean_summary. rewrite replace_char_delete.
  split; [reflexivity|]. split.
  - intros Hin. apply strip_incl, List.filter_In in Hin as [_ Hin].
    now rewrite N.eqb_refl in Hin.
  - split; intros c r H; [exact (strip_head _ _ _ H) | exact (strip_last _ _ _ H)].
Qed.

(** X22: on an answer without bullet, black circle, hyphen or small
    square, and in which no banned phrase matches, the two summarizers
    return the same summary. *)
Theorem summarizers_agree_on_plain_answers text st st' answer rest rest' :
  (forall c, In c answer -> c <> 8226%N /\ c <> 9679%N /\ c <> 45%N /\ c <> 9642%N) ->
  ~ mentions_banned_phrase (clean_summary answer) ->
  bedrock_invoke_model E (tick st) (py "deepseek.v3-v1:0")
    (request_body E (document_content text)) = Return (answer :: rest) ->
  bedrock_invoke_model E (tick st') (py "deepseek.v3-v1:0")
    (Legacy.request_body E (document_content text)) = Return (answer :: rest') ->
  fst (generate_summary E text st) = fst (Legacy.generate_summary E text st').
Proof.
  intros Hplain Hno Hnew Hold.
  rewrite generate_summary_run, legacy_generate_summary_run. cbv zeta.
  rewrite Hnew, Hold. cbn [fst].
  destruct (has_bad_phrase (clean_summary answer)) eqn:Hb.
  { apply has_bad_phrase_spec in Hb. contradiction. }
  f_equal. rewrite clean_summary_filter. unfold Legacy.clean_summary.
  rewrite replace_char_delete. f_equal.
  clear - Hplain. induction answer as [|c s IH]; [reflexivity|].
  destruct (Hplain c (or_introl eq_refl)) as [H1 [H2 [H3 H4]]].
  cbn [List.filter existsb formatting_characters].
  apply N.eqb_neq in H1, H2, H3, H4. rewrite H1, H2, H3, H4.
  rewrite !orb_false_r.
  destruct (N.eqb c 42); cbn [negb]; [|f_equal]; apply IH;
    intros c' Hc'; apply Hplain; now right.
Qed.

End LegacySummarizer.

Lemma legacy_summary_is_the_answer_witness :
  fst (Legacy.generate_summary (RT := ascii_runtime) (answering corrupted_answer)
         short_text initial_state)
    = Return (py "The file Appears To Be Corrupted and cannot be summarised.").
Proof.
  rewrite (proj1 (legacy_summary_is_the_answer (RT := ascii_runtime)
                    (answering corrupted_answer) short_text initial_state
                    corrupted_answer [] eq_refl)).
  vm_compute. reflexivity.
Defined.

Lemma summarizers_agree_on_plain_answers_witness :
  ~ mentions_banned_phrase (RT := ascii_runtime) (clean_summary sample_summary) /\
  fst (generate_summary (RT := ascii_runtime) healthy_env notes initial_state)
    = fst (Legacy.generate_summary (RT := ascii_runtime) healthy_env notes initial_state).
Proof.
  assert (~ mentions_banned_phrase (RT := ascii_runtime)
            (clean_summary sample_summary)) as Hno.
  { intros H. apply (has_bad_phrase_spec (RT := ascii_runtime)) in H.
    vm_compute in H. discriminate H. }
  assert (forall c, In c sample_summary ->
            c <> 8226%N /\ c <> 9679%N /\ c <> 45%N /\ c <> 9642%N) as Hplain.
  { assert (forallb (fun c => negb ((c =? 8226) || (c =? 9679) || (c =? 45)
                                     || (c =? 9642))%N) sample_summary = true)
      as Hall by (vm_compute; reflexivity).
    rewrite forallb_forall in Hall. intros c Hc. specialize (Hall c Hc).
    apply negb_true_iff in Hall. rewrite !orb_false_iff, !N.eqb_neq in Hall. tauto. }
  split; [exact Hno|].
  exact (summarizers_agree_on_plain_answers (RT := ascii_runtime) healthy_env notes
           initial_state initial_state sample_summary [] [] Hplain Hno eq_refl eq_refl).
Defined.

(** ** The guard and letter case *)

Lemma ascii_lower_is_ascii c : is_ascii c = true -> is_ascii (ascii_lower c) = true.
Proof.
  unfold is_ascii, ascii_lower. intros H. apply N.ltb_lt in H.
  destruct ((65 <=? c) && (c <=? 90))%N eqn:Hc; apply N.ltb_lt; [|exact H].
  apply andb_true_iff in Hc as [_ Hc]. apply N.leb_le in Hc. lia.
Qed.

Lemma ascii_lower_idempotent c : ascii_lower (ascii_lower c) = ascii_lower c.
Proof.
  unfold ascii_lower.
  destruct ((65 <=? c) && (c <=? 90))%N eqn:Hc; [|now rewrite Hc].
  apply andb_true_iff in Hc as [H1 H2]. apply N.leb_le in H1, H2.
  destruct ((65 <=? c + 32) && (c + 32 <=? 90))%N eqn:Hc'; [|reflexivity].
  apply andb_true_iff in Hc' as [_ H3]. apply N.leb_le in H3. lia.
Qed.

Section GuardCase.
Context `{RT : PyRuntime}.

(** X23: on an ASCII text the guard ignores the case of letters: a text
    and its lower-cased form are judged alike, under any Unicode
    tables. *)
Theorem guard_ignores_case (s : pystr) :
  forallb is_ascii s = true ->
  has_bad_phrase (List.map ascii_lower s) = has_bad_phrase s.
Proof.
  intros Hs. unfold has_bad_phrase.
  assert (forallb is_ascii (List.map ascii_lower s) = true) as Hl.
  { rewrite forallb_forall in *. intros c Hc.
    apply List.in_map_iff in Hc as [c' [<- Hc']].
    apply ascii_lower_is_ascii. now apply Hs. }
  rewrite (str_lower_ascii _ Hl), (str_lower_ascii _ Hs), List.map_map.
  now rewrite (List.map_ext (fun x => ascii_lower (ascii_lower x)) ascii_lower
                 ascii_lower_idempotent).
Qed.

End GuardCase.

Lemma guard_ignores_case_witness :
  forallb is_ascii corrupted_answer = true /\
  has_bad_phrase (RT := ascii_runtime) (List.map ascii_lower corrupted_answer) =
  has_bad_phrase (RT := ascii_runtime) corrupted_answer.
Proof.
  assert (forallb is_ascii corrupted_answer = true) as Hs by (vm_compute; reflexivity).
  split; [exact Hs|].
  exact (guard_ignores_case (RT := ascii_runtime) corrupted_answer Hs).
Defined.

(** ** Additional data of an item *)

(** X24: the additional data of [store_metadata] win over the fields of
    the same name and leave the other fields alone; an empty dict, like
    no dict, changes nothing. *)
Theorem additional_data_update document_id key status ts now (d : gmap string attr) :
  (forall a v, d !! a = Some v ->
     metadata_item document_id key status ts (Some d) now !! a = Some v) /\
  (forall a, d !! a = None ->
     metadata_item document_id key status ts (Some d) now !! a =
     metadata_item document_id key status ts None now !! a) /\
  metadata_item document_id key status ts (Some ∅) now =
  metadata_item document_id key status ts None now.
Proof.
  split; [intros a v; apply metadata_item_lookup_additional|].
  split.
  - intros a Ha. apply metadata_item_lookup. intros d' H. now injection H as <-.
  - unfold metadata_item. now rewrite bool_decide_eq_true_2.
Qed.

Lemma additional_data_update_witness :
  ({["processing_status"%string := AStr (py "RETRYING")]} : gmap string attr)
    !! "processing_status"%string = Some (AStr (py "RETRYING")) /\
  status_of (metadata_item (py "id") (py "notes.txt") (py "PROCESSING") 0
               (Some {["processing_status"%string := AStr (py "RETRYING")]}) 0)
    = Some (AStr (py "RETRYING")).
Proof.
  assert (({["processing_status"%string := AStr (py "RETRYING")]} : gmap string attr)
            !! "processing_status"%string = Some (AStr (py "RETRYING"))) as H
    by reflexivity.
  split; [exact H|].
  exact (proj1 (additional_data_update (py "id") (py "notes.txt") (py "PROCESSING")
                  0 0 {["processing_status"%string := AStr (py "RETRYING")]})
           "processing_status"%string _ H).
Defined.
